(** * cluster-autoscaler-operator: the reconciliation handler and its builders

    A shallow embedding of [pkg/autoscaler/handler.go] and of the test file of
    package [clusterautoscaler], followed by the properties of the handler,
    of the desired-state builder and of the availability predicate.

    Conventions of the embedding:
    - a Go struct is a record in a module of its own ([Deployment.t] with
      projections [Deployment.Spec], ...), so that field names stay those of
      the source;
    - a Go pointer field ([*int32], [*string], [*ResourceRange]) is an
      [option], [nil] being [None];
    - a Go [map[string]string] is a [gmap string string];
    - [int32] values are integers [Z];
    - a Go [error] value is an [option error], [nil] being [None];
    - the calls to the object store ([sdk.Create], [sdk.Get], [sdk.Update])
      run in a state monad over the process state, which records every call
      in the order it was made. *)

From stdpp Require Import base decidable option list strings gmap pretty.

Local Open Scope string_scope.
Local Open Scope list_scope.

(** ** Kubernetes API types (the fields the program reads or writes) *)

Module TypeMeta.
Record t := mk { APIVersion : string; Kind : string }.
Definition zero : t := mk "" "".
End TypeMeta.

Module OwnerReference.
Record t := mk {
  APIVersion : string;
  Kind : string;
  Name : string;
  UID : string;
  Controller : option bool
}.
End OwnerReference.

Module ObjectMeta.
Record t := mk {
  Name : string;
  Namespace : string;
  UID : string;
  ResourceVersion : string;
  Generation : Z;
  Labels : gmap string string;
  Annotations : gmap string string;
  OwnerReferences : list OwnerReference.t
}.
Definition zero : t := mk "" "" "" "" 0 ∅ ∅ [].
End ObjectMeta.

Module LabelSelector.
Record t := mk { MatchLabels : gmap string string }.
End LabelSelector.

Module Container.
Record t := mk {
  Name : string;
  Image : string;
  Command : list string;
  Args : list string
}.
End Container.

Inductive TolerationOperator := TolerationOpExists | TolerationOpEqual | TolerationOpUnset.

Module Toleration.
Record t := mk { Key : string; Operator : TolerationOperator }.
End Toleration.

Module PodSpec.
(** [RestartPolicy], [DNSPolicy] and [SchedulerName] stand for the fields
    the builder leaves at their zero value and the API server fills in. *)
Record t := mk {
  ServiceAccountName : string;
  Containers : list Container.t;
  Tolerations : list Toleration.t;
  RestartPolicy : string;
  DNSPolicy : string;
  SchedulerName : string
}.
Definition zero : t := mk "" [] [] "" "" "".
End PodSpec.

Module PodTemplateSpec.
Record t := mk { ObjectMeta : ObjectMeta.t; Spec : PodSpec.t }.
Definition zero : t := mk ObjectMeta.zero PodSpec.zero.
End PodTemplateSpec.

Module DeploymentSpec.
Record t := mk {
  Replicas : option Z;
  Selector : option LabelSelector.t;
  Template : PodTemplateSpec.t
}.
Definition zero : t := mk None None PodTemplateSpec.zero.
End DeploymentSpec.

Module DeploymentStatus.
Record t := mk {
  ObservedGeneration : Z;
  Replicas : Z;
  UpdatedReplicas : Z;
  AvailableReplicas : Z
}.
Definition zero : t := mk 0 0 0 0.
End DeploymentStatus.

Module Deployment.
Record t := mk {
  TypeMeta : TypeMeta.t;
  ObjectMeta : ObjectMeta.t;
  Spec : DeploymentSpec.t;
  Status : DeploymentStatus.t
}.
(** [appsv1.Deployment{}] *)
Definition zero : t :=
  mk TypeMeta.zero ObjectMeta.zero DeploymentSpec.zero DeploymentStatus.zero.

(** The assignment [dep.Spec.Template.Spec = podSpec]. *)
Definition set_Spec_Template_Spec (dep : t) (podSpec : PodSpec.t) : t :=
  mk (TypeMeta dep) (ObjectMeta dep)
     (DeploymentSpec.mk
        (DeploymentSpec.Replicas (Spec dep))
        (DeploymentSpec.Selector (Spec dep))
        (PodTemplateSpec.mk
           (PodTemplateSpec.ObjectMeta (DeploymentSpec.Template (Spec dep)))
           podSpec))
     (Status dep).

(** [obj.GetOwnerReferences()] and [obj.SetOwnerReferences(refs)]. *)
Definition GetOwnerReferences (dep : t) : list OwnerReference.t :=
  ObjectMeta.OwnerReferences (ObjectMeta dep).
Definition SetOwnerReferences (dep : t) (refs : list OwnerReference.t) : t :=
  let m := ObjectMeta dep in
  mk (TypeMeta dep)
     (ObjectMeta.mk (ObjectMeta.Name m) (ObjectMeta.Namespace m) (ObjectMeta.UID m)
        (ObjectMeta.ResourceVersion m) (ObjectMeta.Generation m)
        (ObjectMeta.Labels m) (ObjectMeta.Annotations m) refs)
     (Spec dep) (Status dep).
End Deployment.

(** ** The configuration resource (package [v1alpha1]), with the fields the
    test file's [NewClusterAutoscaler] sets *)

Module ResourceRange.
Record t := mk { Min : Z; Max : Z }.
End ResourceRange.

Module GPULimit.
Record t := mk { Type_ : string; Min : Z; Max : Z }.
End GPULimit.

Module ResourceLimits.
Record t := mk {
  MaxNodesTotal : option Z;
  Cores : option ResourceRange.t;
  Memory : option ResourceRange.t;
  GPUS : list GPULimit.t
}.
End ResourceLimits.

Module ScaleDownConfig.
Record t := mk {
  Enabled : bool;
  DelayAfterAdd : option string;
  UnneededTime : option string
}.
End ScaleDownConfig.

Module ClusterAutoscalerSpec.
Record t := mk {
  MaxPodGracePeriod : option Z;
  PodPriorityThreshold : option Z;
  ResourceLimits : option ResourceLimits.t;
  ScaleDown : option ScaleDownConfig.t
}.
End ClusterAutoscalerSpec.

Module ClusterAutoscaler.
Record t := mk {
  TypeMeta : TypeMeta.t;
  ObjectMeta : ObjectMeta.t;
  Spec : ClusterAutoscalerSpec.t
}.
Definition Name (ca : t) : string := ObjectMeta.Name (ObjectMeta ca).
Definition Namespace (ca : t) : string := ObjectMeta.Namespace (ObjectMeta ca).
Definition UID (ca : t) : string := ObjectMeta.UID (ObjectMeta ca).
Definition APIVersion (ca : t) : string := TypeMeta.APIVersion (TypeMeta ca).
Definition Kind (ca : t) : string := TypeMeta.Kind (TypeMeta ca).
End ClusterAutoscaler.

(** Decidable equality of the API types: structural equality of values. *)

#[global] Instance TypeMeta_eq_dec : EqDecision TypeMeta.t.
Proof. solve_decision. Defined.
#[global] Instance OwnerReference_eq_dec : EqDecision OwnerReference.t.
Proof. solve_decision. Defined.
#[global] Instance ObjectMeta_eq_dec : EqDecision ObjectMeta.t.
Proof. solve_decision. Defined.
#[global] Instance LabelSelector_eq_dec : EqDecision LabelSelector.t.
Proof. solve_decision. Defined.
#[global] Instance Container_eq_dec : EqDecision Container.t.
Proof. solve_decision. Defined.
#[global] Instance TolerationOperator_eq_dec : EqDecision TolerationOperator.
Proof. solve_decision. Defined.
#[global] Instance Toleration_eq_dec : EqDecision Toleration.t.
Proof. solve_decision. Defined.
#[global] Instance PodSpec_eq_dec : EqDecision PodSpec.t.
Proof. solve_decision. Defined.
#[global] Instance PodTemplateSpec_eq_dec : EqDecision PodTemplateSpec.t.
Proof. solve_decision. Defined.
#[global] Instance DeploymentSpec_eq_dec : EqDecision DeploymentSpec.t.
Proof. solve_decision. Defined.
#[global] Instance DeploymentStatus_eq_dec : EqDecision DeploymentStatus.t.
Proof. solve_decision. Defined.
#[global] Instance Deployment_eq_dec : EqDecision Deployment.t.
Proof. solve_decision. Defined.

(** [runtime.Object]: the objects of the store, and what an event carries. *)
Inductive Object :=
  | Object_ClusterAutoscaler (o : ClusterAutoscaler.t)
  | Object_Deployment (o : Deployment.t)
  | Object_other (kind : TypeMeta.t).

(** ** Errors (packages [errors] of apimachinery and [fmt]) *)

Inductive StatusReason :=
  | StatusReasonUnknown
  | StatusReasonAlreadyExists
  | StatusReasonNotFound
  | StatusReasonConflict
  | StatusReasonServerTimeout
  | StatusReasonInternalError.

#[global] Instance StatusReason_eq_dec : EqDecision StatusReason.
Proof. solve_decision. Defined.

(** A non-nil Go [error]: an API status error, which carries a reason, or
    the plain error that [fmt.Errorf] makes. *)
Inductive error :=
  | StatusError (reason : StatusReason) (message : string)
  | errorString (s : string).

#[global] Instance error_eq_dec : EqDecision error.
Proof. solve_decision. Defined.

(** [err.Error()] *)
Definition Error (e : error) : string :=
  match e with
  | StatusError _ message => message
  | errorString s => s
  end.

(** [errors.ReasonForError]: the reason of a status error, unknown for any
    other error and for [nil]. *)
Definition ReasonForError (err : option error) : StatusReason :=
  match err with
  | Some (StatusError reason _) => reason
  | _ => StatusReasonUnknown
  end.

Definition IsAlreadyExists (err : option error) : bool :=
  bool_decide (ReasonForError err = StatusReasonAlreadyExists).

Definition IsNotFound (err : option error) : bool :=
  bool_decide (ReasonForError err = StatusReasonNotFound).

(** [fmt.Errorf(prefix + "%v", err)]: every format string of the program is
    a fixed text followed by [%v]. *)
Definition fmt_Errorf (prefix : string) (err : option error) : error :=
  errorString (prefix +:+ match err with Some e => Error e | None => "<nil>" end).

(** ** [reflect.DeepEqual] on the values the program passes to it

    An interface value carries its dynamic type.  [reflect.DeepEqual] first
    compares the dynamic types of its two arguments and answers [false] when
    they differ; values of one type are compared structurally, pointers by
    their pointees.  (Go tells a nil slice or map from an empty one; the
    embedding has one empty list and one empty map, which no comparison of
    the program depends on: its one call compares values of two types.) *)

Inductive GoType := Type_PodSpec | Type_ptr_PodSpec.

#[global] Instance GoType_eq_dec : EqDecision GoType.
Proof. solve_decision. Defined.

Inductive iface :=
  | iface_PodSpec (v : PodSpec.t)              (* a [corev1.PodSpec] *)
  | iface_ptr_PodSpec (p : option PodSpec.t).  (* a [*corev1.PodSpec] *)

Definition reflect_TypeOf (x : iface) : GoType :=
  match x with
  | iface_PodSpec _ => Type_PodSpec
  | iface_ptr_PodSpec _ => Type_ptr_PodSpec
  end.

Definition reflect_DeepEqual (x y : iface) : bool :=
  if bool_decide (reflect_TypeOf x ≠ reflect_TypeOf y) then false
  else match x, y with
       | iface_PodSpec a, iface_PodSpec b => bool_decide (a = b)
       | iface_ptr_PodSpec p, iface_ptr_PodSpec q => bool_decide (p = q)
       | _, _ => false
       end.

(** ** The process state and its monad *)

(** The calls made to the object store, with the object passed. *)
Inductive sdkCall :=
  | CallCreate (object : Deployment.t)
  | CallGet (into : Deployment.t)
  | CallUpdate (object : Deployment.t).

#[global] Instance sdkCall_eq_dec : EqDecision sdkCall.
Proof. solve_decision. Defined.

Definition isCreate (c : sdkCall) : bool :=
  match c with CallCreate _ => true | _ => false end.
Definition isGet (c : sdkCall) : bool :=
  match c with CallGet _ => true | _ => false end.
Definition isUpdate (c : sdkCall) : bool :=
  match c with CallUpdate _ => true | _ => false end.

(** The object store behind package [sdk].  [store_Get] answers the error
    and the contents of the object passed once the call returns: [sdk.Get]
    fills its argument in place. *)
Class ObjectStore (W : Type) := {
  store_Create : Deployment.t → W → option error * W;
  store_Get : Deployment.t → W → option error * Deployment.t * W;
  store_Update : Deployment.t → W → option error * W
}.

(** [store]: the object store; [calls]: the calls made so far, oldest first;
    [counters]: the values of the counters made by [prometheus.NewCounter];
    [registry]: the metric names registered with [prometheus.Register]. *)
Record State (W : Type) := mkState {
  store : W;
  calls : list sdkCall;
  counters : list nat;
  registry : list string
}.
Arguments mkState {W} _ _ _ _.
Arguments store {W} _.
Arguments calls {W} _.
Arguments counters {W} _.
Arguments registry {W} _.

Definition M (W A : Type) : Type := State W → A * State W.

#[global] Instance M_ret {W} : MRet (M W) := λ A (a : A) s, (a, s).
#[global] Instance M_bind {W} : MBind (M W) := λ A B (f : A → M W B) (m : M W A) s,
  let '(a, s') := m s in f a s'.

(** ** Package [autoscaler]: [pkg/autoscaler/handler.go] *)

Module autoscaler.

Definition caImage : string := "quay.io/bison/cluster-autoscaler:a554b4f5".
Definition criticalPod : string := "scheduler.alpha.kubernetes.io/critical-pod".
Definition caServiceAccount : string := "cluster-autoscaler".

(** [prometheus.Counter]: a handle on a cell of [counters]. *)
Record Counter := mkCounter { counterName : string; counterCell : nat }.

Record Metrics := mkMetrics { operatorErrors : Counter }.

Record Handler := mkHandler { metrics : Metrics }.

Definition NewHandler (m : Metrics) : Handler := mkHandler m.

Module Event.
Record t := mk { Object : Object; Deleted : bool }.
End Event.

(** [AutoscalerArgs(ca)] is a function of this package that handler.go
    calls and does not define: it is a parameter of the builders. *)
Class ArgsBuilder := AutoscalerArgs : ClusterAutoscaler.t → list string.

(** asOwner returns an OwnerReference set as the ClusterAutoscaler CR. *)
Definition asOwner (ca : ClusterAutoscaler.t) : OwnerReference.t :=
  let trueVar := true in
  OwnerReference.mk
    (ClusterAutoscaler.APIVersion ca)
    (ClusterAutoscaler.Kind ca)
    (ClusterAutoscaler.Name ca)
    (ClusterAutoscaler.UID ca)
    (Some trueVar).

(** addOwnerRefToObject appends the desired OwnerReference to the object. *)
Definition addOwnerRefToObject (obj : Deployment.t) (ownerRef : OwnerReference.t)
    : Deployment.t :=
  Deployment.SetOwnerReferences obj (Deployment.GetOwnerReferences obj ++ [ownerRef]).

Section builders.
Context `{!ArgsBuilder}.

(** The function returns a pointer to a new [corev1.PodSpec]; this is the
    pointee. *)
Definition autoscalerPodSpec (ca : ClusterAutoscaler.t) : PodSpec.t :=
  let args := AutoscalerArgs ca in
  PodSpec.mk
    caServiceAccount
    [ Container.mk "cluster-autoscaler" caImage ["/cluster-autoscaler"] args ]
    [ Toleration.mk "CriticalAddonsOnly" TolerationOpExists ]
    "" "" "".

Definition autoscalerDeployment (ca : ClusterAutoscaler.t) : Deployment.t :=
  let replicas : Z := 1%Z in
  let deploymentName := "cluster-autoscaler-" +:+ ClusterAutoscaler.Name ca in
  let labels : gmap string string :=
    <["cluster-autoscaler" := ClusterAutoscaler.Name ca]>
      (<["app" := "cluster-autoscaler"]> ∅) in
  let annotations : gmap string string := <[criticalPod := ""]> ∅ in
  let podSpec := autoscalerPodSpec ca in
  let dep :=
    Deployment.mk
      (TypeMeta.mk "apps/v1" "Deployment")
      (ObjectMeta.mk deploymentName (ClusterAutoscaler.Namespace ca)
         "" "" 0 ∅ ∅ [])
      (DeploymentSpec.mk
         (Some replicas)
         (Some (LabelSelector.mk labels))
         (PodTemplateSpec.mk
            (ObjectMeta.mk "" "" "" "" 0 labels annotations [])
            podSpec))
      DeploymentStatus.zero in
  addOwnerRefToObject dep (asOwner ca).
End builders.

Section handler.
Context `{!ArgsBuilder} {W : Type} `{!ObjectStore W}.

Definition logCall (c : sdkCall) (w : W) (s : State W) : State W :=
  mkState w (calls s ++ [c]) (counters s) (registry s).

Definition sdk_Create (object : Deployment.t) : M W (option error) := λ s,
  let '(err, w) := store_Create object (store s) in
  (err, logCall (CallCreate object) w s).

Definition sdk_Get (into : Deployment.t) : M W (option error * Deployment.t) := λ s,
  let '(err, into', w) := store_Get into (store s) in
  ((err, into'), logCall (CallGet into) w s).

Definition sdk_Update (object : Deployment.t) : M W (option error) := λ s,
  let '(err, w) := store_Update object (store s) in
  (err, logCall (CallUpdate object) w s).

Definition updateAutoscaler (ca : ClusterAutoscaler.t) : M W (option error) :=
  let dep := autoscalerDeployment ca in
  '(err, dep) ← sdk_Get dep;
  if bool_decide (err ≠ None) then
    mret (Some (fmt_Errorf "failed to get autoscaler deployment: " err))
  else
    let podSpec := autoscalerPodSpec ca in
    if negb (reflect_DeepEqual
               (iface_PodSpec
                  (PodTemplateSpec.Spec (DeploymentSpec.Template (Deployment.Spec dep))))
               (iface_ptr_PodSpec (Some podSpec)))
    then
      let dep := Deployment.set_Spec_Template_Spec dep podSpec in
      err ← sdk_Update dep;
      if bool_decide (err ≠ None) then
        mret (Some (fmt_Errorf "failed to update autoscaler deployment: " err))
      else mret None
    else mret None.

Definition Handle (h : Handler) (event : Event.t) : M W (option error) :=
  match Event.Object event with
  | Object_ClusterAutoscaler o =>
      let clusterAutoscaler := o in
      (* Ignore deletes. *)
      if Event.Deleted event then mret None
      else
        let dep := autoscalerDeployment clusterAutoscaler in
        err ← sdk_Create dep;
        if bool_decide (err ≠ None) && negb (IsAlreadyExists err) then
          mret (Some (fmt_Errorf "failed to create autoscaler deployment: " err))
        else if IsAlreadyExists err then updateAutoscaler clusterAutoscaler
        else mret None
  | _ => mret None
  end.
End handler.

(** [prometheus.NewCounter]: a new counter, at zero. *)
Definition prometheus_NewCounter {W} (name : string) : M W Counter := λ s,
  (mkCounter name (length (counters s)),
   mkState (store s) (calls s) (counters s ++ [0]) (registry s)).

(** [prometheus.Register]: refuses a name that is registered already. *)
Definition prometheus_Register {W} (c : Counter) : M W (option error) := λ s,
  if bool_decide (counterName c ∈ registry s) then
    (Some (errorString "duplicate metrics collector registration attempted"), s)
  else (None, mkState (store s) (calls s) (counters s) (counterName c :: registry s)).

Definition RegisterOperatorMetrics {W} : M W (option Metrics * option error) :=
  operatorErrors ← prometheus_NewCounter "memcached_operator_reconcile_errors_total";
  err ← prometheus_Register operatorErrors;
  if bool_decide (err ≠ None) then mret (None, err)
  else mret (Some (mkMetrics operatorErrors), None).

(** The value of the error counter of a handler. *)
Definition operatorErrorsValue {W} (h : Handler) (s : State W) : option nat :=
  counters s !! counterCell (operatorErrors (metrics h)).

End autoscaler.

(** ** An in-memory object store for package [sdk]

    Objects are addressed by namespace and name.  A fault, when set, is the
    error the matching call answers, whatever the store holds: it stands for
    a transport or storage failure. *)

Module FakeStore.
Record t := mk {
  objects : list Deployment.t;
  faultCreate : option error;
  faultGet : option error;
  faultUpdate : option error
}.

Definition empty : t := mk [] None None None.

Definition sameKey (a b : Deployment.t) : bool :=
  bool_decide (ObjectMeta.Namespace (Deployment.ObjectMeta a)
               = ObjectMeta.Namespace (Deployment.ObjectMeta b))
  && bool_decide (ObjectMeta.Name (Deployment.ObjectMeta a)
                  = ObjectMeta.Name (Deployment.ObjectMeta b)).

Definition find (key : Deployment.t) (w : t) : option Deployment.t :=
  List.find (sameKey key) (objects w).

Definition withObjects (w : t) (l : list Deployment.t) : t :=
  mk l (faultCreate w) (faultGet w) (faultUpdate w).

Definition keyName (d : Deployment.t) : string :=
  ObjectMeta.Name (Deployment.ObjectMeta d).

Definition Create (object : Deployment.t) (w : t) : option error * t :=
  match faultCreate w with
  | Some e => (Some e, w)
  | None =>
      match find object w with
      | Some _ =>
          (Some (StatusError StatusReasonAlreadyExists
                   ("deployments.apps " +:+ keyName object +:+ " already exists")), w)
      | None => (None, withObjects w (objects w ++ [object]))
      end
  end.

Definition Get (into : Deployment.t) (w : t) : option error * Deployment.t * t :=
  match faultGet w with
  | Some e => (Some e, into, w)
  | None =>
      match find into w with
      | Some stored => (None, stored, w)
      | None =>
          (Some (StatusError StatusReasonNotFound
                   ("deployments.apps " +:+ keyName into +:+ " not found")), into, w)
      end
  end.

Definition Update (object : Deployment.t) (w : t) : option error * t :=
  match faultUpdate w with
  | Some e => (Some e, w)
  | None =>
      match find object w with
      | Some _ =>
          (None, withObjects w
                   (List.map (λ d, if sameKey object d then object else d) (objects w)))
      | None =>
          (Some (StatusError StatusReasonNotFound
                   ("deployments.apps " +:+ keyName object +:+ " not found")), w)
      end
  end.
End FakeStore.

#[global] Instance FakeStore_ObjectStore : ObjectStore FakeStore.t := {|
  store_Create := FakeStore.Create;
  store_Get := FakeStore.Get;
  store_Update := FakeStore.Update
|}.

(** The state of a process that has made no call yet. *)
Definition initState {W} (w : W) : State W := mkState w [] [] [].


(** ** Package [clusterautoscaler]: the test file, and the two functions it
    exercises *)

Module clusterautoscaler.

(** The process-wide settings, with the fields the test file sets. *)
Module Config.
Record t := mk {
  ReleaseVersion : string;
  Name : string;
  Namespace : string;
  CloudProvider : string
}.
End Config.

Definition NvidiaGPU : string := "nvidia.com/gpu".
Definition TestNamespace : string := "test".
Definition TestCloudProvider : string := "testProvider".

Definition ScaleDownUnneededTime : string := "10s".
Definition ScaleDownDelayAfterAdd : string := "60s".
Definition PodPriorityThreshold : Z := (-10)%Z.
Definition MaxPodGracePeriod : Z := 60%Z.
Definition MaxNodesTotal : Z := 100%Z.
Definition CoresMin : Z := 16%Z.
Definition CoresMax : Z := 32%Z.
Definition MemoryMin : Z := 32%Z.
Definition MemoryMax : Z := 64%Z.
Definition NvidiaGPUMin : Z := 4%Z.
Definition NvidiaGPUMax : Z := 8%Z.

Definition NewClusterAutoscaler : ClusterAutoscaler.t :=
  ClusterAutoscaler.mk
    (TypeMeta.mk "autoscaling.openshift.io/v1alpha1" "ClusterAutoscaler")
    (ObjectMeta.mk "test" TestNamespace "" "" 0 ∅ ∅ [])
    (ClusterAutoscalerSpec.mk
       (Some MaxPodGracePeriod)
       (Some PodPriorityThreshold)
       (Some (ResourceLimits.mk
                (Some MaxNodesTotal)
                (Some (ResourceRange.mk CoresMin CoresMax))
                (Some (ResourceRange.mk MemoryMin MemoryMax))
                [ GPULimit.mk NvidiaGPU NvidiaGPUMin NvidiaGPUMax ]))
       (Some (ScaleDownConfig.mk true
                (Some ScaleDownDelayAfterAdd)
                (Some ScaleDownUnneededTime)))).

Fixpoint includesStringWithPrefix (list : list string) (prefix : string) : bool :=
  match list with
  | [] => false
  | s :: rest =>
      if String.prefix prefix s then true else includesStringWithPrefix rest prefix
  end.

Fixpoint includeString (list : list string) (item : string) : bool :=
  match list with
  | [] => false
  | s :: rest => if String.eqb s item then true else includeString rest item
  end.

(** The number of elements of the list that start with the prefix. *)
Fixpoint countStringsWithPrefix (list : list string) (prefix : string) : nat :=
  match list with
  | [] => 0
  | s :: rest =>
      (if String.prefix prefix s then 1 else 0) + countStringsWithPrefix rest prefix
  end.

(** *** [AutoscalerArgs]

    The flag names are those of the format strings of [TestAutoscalerArgs].
    The test has no flag for the memory range and none for the GPU ranges:
    their names, and the text of the value of a GPU range, are parameters. *)

Class RangeFlags := {
  MemoryTotalArg : string;
  GPUTotalArg : string;
  GPUValue : GPULimit.t → string
}.

Definition ScaleDownDelayAfterAddArg : string := "--scale-down-delay-after-add".
Definition ScaleDownUnneededTimeArg : string := "--scale-down-unneeded-time".
Definition ExpendablePodsPriorityCutoffArg : string := "--expendable-pods-priority-cutoff".
Definition MaxGracefulTerminationSecArg : string := "--max-graceful-termination-sec".
Definition CoresTotalArg : string := "--cores-total".
Definition MaxNodesTotalArg : string := "--max-nodes-total".
Definition NamespaceArg : string := "--namespace".
Definition CloudProviderArg : string := "--cloud-provider".

(** [fmt.Sprintf("%s=%s", a, v)] *)
Definition Value (a v : string) : string := a +:+ "=" +:+ v.

(** [fmt.Sprintf("%s=%d", a, v)] *)
Definition IntValue (a : string) (v : Z) : string := Value a (pretty v).

(** [fmt.Sprintf("%s=%d:%d", a, min, max)] *)
Definition RangeValue (r : ResourceRange.t) : string :=
  pretty (ResourceRange.Min r) +:+ ":" +:+ pretty (ResourceRange.Max r).
Definition Range (a : string) (r : ResourceRange.t) : string :=
  Value a (RangeValue r).

(** The flag of a GPU limit. *)
Definition GPURange {RF : RangeFlags} (g : GPULimit.t) : string :=
  Value GPUTotalArg (GPUValue g).

(** The optional fields of a configuration resource, [None] when the field
    or the struct that holds it is nil. *)
Definition fieldDelayAfterAdd (ca : ClusterAutoscaler.t) : option string :=
  ClusterAutoscalerSpec.ScaleDown (ClusterAutoscaler.Spec ca) ≫= ScaleDownConfig.DelayAfterAdd.
Definition fieldUnneededTime (ca : ClusterAutoscaler.t) : option string :=
  ClusterAutoscalerSpec.ScaleDown (ClusterAutoscaler.Spec ca) ≫= ScaleDownConfig.UnneededTime.
Definition fieldPodPriorityThreshold (ca : ClusterAutoscaler.t) : option Z :=
  ClusterAutoscalerSpec.PodPriorityThreshold (ClusterAutoscaler.Spec ca).
Definition fieldMaxPodGracePeriod (ca : ClusterAutoscaler.t) : option Z :=
  ClusterAutoscalerSpec.MaxPodGracePeriod (ClusterAutoscaler.Spec ca).
Definition fieldCores (ca : ClusterAutoscaler.t) : option ResourceRange.t :=
  ClusterAutoscalerSpec.ResourceLimits (ClusterAutoscaler.Spec ca) ≫= ResourceLimits.Cores.
Definition fieldMemory (ca : ClusterAutoscaler.t) : option ResourceRange.t :=
  ClusterAutoscalerSpec.ResourceLimits (ClusterAutoscaler.Spec ca) ≫= ResourceLimits.Memory.
Definition fieldGPUS (ca : ClusterAutoscaler.t) : list GPULimit.t :=
  from_option ResourceLimits.GPUS []
    (ClusterAutoscalerSpec.ResourceLimits (ClusterAutoscaler.Spec ca)).
Definition fieldMaxNodesTotal (ca : ClusterAutoscaler.t) : option Z :=
  ClusterAutoscalerSpec.ResourceLimits (ClusterAutoscaler.Spec ca)
    ≫= ResourceLimits.MaxNodesTotal.

(** One flag when the field is set, none when it is nil. *)
Definition flagIfSet {A} (field : option A) (format : A → string) : list string :=
  match field with
  | Some v => [format v]
  | None => []
  end.

(** Modelled from the spec: [AutoscalerArgs(ca, cfg)] is called by the test
    file and defined in a file that is not part of the sources.  Section 4.1
    of the specification: each optional field of the configuration resource
    (scale-down delay-after-add, unneeded-time, pod-priority threshold,
    graceful-termination seconds, per-resource-type min:max ranges, global
    node-count ceiling) maps to exactly one command-line flag if and only if
    the field is set; absent fields produce no flag; the namespace and
    cloud-provider flags are always emitted from the process-wide settings.
    The flags come in the order of the list the test expects. *)
Definition AutoscalerArgs {RF : RangeFlags} (ca : ClusterAutoscaler.t) (cfg : Config.t)
    : list string :=
  flagIfSet (fieldDelayAfterAdd ca) (Value ScaleDownDelayAfterAddArg)
  ++ flagIfSet (fieldUnneededTime ca) (Value ScaleDownUnneededTimeArg)
  ++ flagIfSet (fieldPodPriorityThreshold ca) (IntValue ExpendablePodsPriorityCutoffArg)
  ++ flagIfSet (fieldMaxPodGracePeriod ca) (IntValue MaxGracefulTerminationSecArg)
  ++ flagIfSet (fieldCores ca) (Range CoresTotalArg)
  ++ flagIfSet (fieldMemory ca) (Range MemoryTotalArg)
  ++ List.map GPURange (fieldGPUS ca)
  ++ flagIfSet (fieldMaxNodesTotal ca) (IntValue MaxNodesTotalArg)
  ++ [ Value NamespaceArg (Config.Namespace cfg);
       Value CloudProviderArg (Config.CloudProvider cfg) ].

(** The parameters in the concrete runs: the flag names of the autoscaler's
    command line, and a GPU range as type, minimum and maximum. *)
Definition testRangeFlags : RangeFlags := {|
  MemoryTotalArg := "--memory-total";
  GPUTotalArg := "--gpu-total";
  GPUValue := λ g, GPULimit.Type_ g +:+ ":" +:+ pretty (GPULimit.Min g)
                   +:+ ":" +:+ pretty (GPULimit.Max g)
|}.

(** Two flag names are independent when no flag of the second name starts
    with the first name. *)
Definition independent (a b : string) : bool :=
  negb (String.prefix a (b +:+ "=")) && negb (String.prefix (b +:+ "=") a).

(** The flag names that the test and the specification show. *)
Definition knownFlagNames : list string :=
  [ ScaleDownDelayAfterAddArg; ScaleDownUnneededTimeArg;
    ExpendablePodsPriorityCutoffArg; MaxGracefulTerminationSecArg;
    CoresTotalArg; MaxNodesTotalArg; NamespaceArg; CloudProviderArg ].

(** The names given for the memory and GPU flags are independent of the
    known names and of each other. *)
Definition rangeFlagsOk {RF : RangeFlags} : bool :=
  forallb (λ n, independent n MemoryTotalArg && independent MemoryTotalArg n
                && independent n GPUTotalArg && independent GPUTotalArg n)
    knownFlagNames
  && independent MemoryTotalArg GPUTotalArg
  && independent GPUTotalArg MemoryTotalArg.

(** [TestAutoscalerArgs]: the arguments built, those the test expects to
    find and the prefixes it expects not to find. *)
Definition TestAutoscalerArgs_args : list string :=
  AutoscalerArgs (RF := testRangeFlags) NewClusterAutoscaler
    (Config.mk "" "" TestNamespace TestCloudProvider).

Definition TestAutoscalerArgs_expected : list string :=
  [ "--scale-down-delay-after-add=" +:+ ScaleDownDelayAfterAdd;
    "--scale-down-unneeded-time=" +:+ ScaleDownUnneededTime;
    "--expendable-pods-priority-cutoff=" +:+ pretty PodPriorityThreshold;
    "--max-graceful-termination-sec=" +:+ pretty MaxPodGracePeriod;
    "--cores-total=" +:+ pretty CoresMin +:+ ":" +:+ pretty CoresMax;
    "--max-nodes-total=" +:+ pretty MaxNodesTotal;
    "--namespace=" +:+ TestNamespace;
    "--cloud-provider=" +:+ TestCloudProvider ].

Definition TestAutoscalerArgs_expectedMissing : list string :=
  [ "--scale-down-delay-after-delete"; "--scale-down-delay-after-failure" ].

(** The test passes when neither loop reaches [t.Fatalf]. *)
Definition TestAutoscalerArgs : bool :=
  forallb (includeString TestAutoscalerArgs_args) TestAutoscalerArgs_expected
  && forallb (λ e, negb (includesStringWithPrefix TestAutoscalerArgs_args e))
       TestAutoscalerArgs_expectedMissing.

(** *** The reconciler and [AvailableAndUpdated] *)

(** The read side of the controller-runtime client: an object of a kind, by
    namespace and name, or the error of the lookup. *)
Class Client (C : Type) := {
  client_Get_ClusterAutoscaler : C → string → string → error + ClusterAutoscaler.t;
  client_Get_Deployment : C → string → string → error + Deployment.t
}.

Module Reconciler.
Record t (C : Type) := mk { client : C; config : Config.t }.
Arguments mk {C} _ _.
Arguments client {C} _.
Arguments config {C} _.
End Reconciler.

Definition SetConfig {C} (r : Reconciler.t C) (cfg : Config.t) : Reconciler.t C :=
  Reconciler.mk (Reconciler.client r) cfg.

Definition releaseVersionAnnotation : string := "release.openshift.io/version".

(** Modelled from the spec: [Reconciler.AvailableAndUpdated] is called by
    the test file and defined in a file that is not part of the sources.
    Section 4.2 of the specification: the workload exists in the expected
    namespace, its name matches the expected derived name, its
    available-replica count is at least 1, and its release-version annotation
    equals the configured release version; any mismatch yields a negative
    result with no error; only a transport or storage failure while fetching
    yields an error.  The lookup of the configuration resource named by the
    settings, and the positive answer when there is none, are those of case 2
    of [TestAvailableAndUpdated] (no CA in namespace, returns true, nil). *)
Definition AvailableAndUpdated {C} `{!Client C} (r : Reconciler.t C) : bool * option error :=
  let cfg := Reconciler.config r in
  match client_Get_ClusterAutoscaler (Reconciler.client r)
          (Config.Namespace cfg) (Config.Name cfg) with
  | inl err =>
      if IsNotFound (Some err) then (true, None) else (false, Some err)
  | inr ca =>
      let name := "cluster-autoscaler-" +:+ ClusterAutoscaler.Name ca in
      match client_Get_Deployment (Reconciler.client r) (Config.Namespace cfg) name with
      | inl err =>
          if IsNotFound (Some err) then (false, None) else (false, Some err)
      | inr dep =>
          if bool_decide (DeploymentStatus.AvailableReplicas (Deployment.Status dep) < 1)%Z
          then (false, None)
          else if bool_decide
                    (default "" (ObjectMeta.Annotations (Deployment.ObjectMeta dep)
                                   !! releaseVersionAnnotation)
                     ≠ Config.ReleaseVersion cfg)
          then (false, None)
          else (true, None)
      end
  end.

(** [fakeclient.NewFakeClient(initObjects...)]: the objects given, looked up
    by kind, namespace and name; a lookup that finds nothing answers a
    not-found error. *)
Definition FakeClient := list Object.

Definition NewFakeClient (initObjects : list Object) : FakeClient := initObjects.

Fixpoint fake_Get_ClusterAutoscaler (c : FakeClient) (namespace name : string)
    : error + ClusterAutoscaler.t :=
  match c with
  | [] => inl (StatusError StatusReasonNotFound ("clusterautoscalers " +:+ name +:+ " not found"))
  | Object_ClusterAutoscaler ca :: rest =>
      if bool_decide (ClusterAutoscaler.Namespace ca = namespace)
         && bool_decide (ClusterAutoscaler.Name ca = name)
      then inr ca else fake_Get_ClusterAutoscaler rest namespace name
  | _ :: rest => fake_Get_ClusterAutoscaler rest namespace name
  end.

Fixpoint fake_Get_Deployment (c : FakeClient) (namespace name : string)
    : error + Deployment.t :=
  match c with
  | [] => inl (StatusError StatusReasonNotFound ("deployments.apps " +:+ name +:+ " not found"))
  | Object_Deployment d :: rest =>
      if bool_decide (ObjectMeta.Namespace (Deployment.ObjectMeta d) = namespace)
         && bool_decide (ObjectMeta.Name (Deployment.ObjectMeta d) = name)
      then inr d else fake_Get_Deployment rest namespace name
  | _ :: rest => fake_Get_Deployment rest namespace name
  end.

#[global] Instance FakeClient_Client : Client FakeClient := {|
  client_Get_ClusterAutoscaler := fake_Get_ClusterAutoscaler;
  client_Get_Deployment := fake_Get_Deployment
|}.

(** A client whose every lookup fails with the given error. *)
Record BrokenClient := mkBrokenClient { brokenWith : error }.

#[global] Instance BrokenClient_Client : Client BrokenClient := {|
  client_Get_ClusterAutoscaler := λ c _ _, inl (brokenWith c);
  client_Get_Deployment := λ c _ _, inl (brokenWith c)
|}.

Definition newFakeReconciler (initObjects : list Object) : Reconciler.t FakeClient :=
  Reconciler.mk (NewFakeClient initObjects) (Config.mk "" "" "" "").

(** [TestAvailableAndUpdated] *)

Definition testDeployment (version : string) : Deployment.t :=
  Deployment.mk TypeMeta.zero
    (ObjectMeta.mk "cluster-autoscaler-test" TestNamespace "" "" 1
       ∅ (<[releaseVersionAnnotation := version]> ∅) [])
    DeploymentSpec.zero
    (DeploymentStatus.mk 1 1 1 1).

Definition dep1 : Deployment.t := testDeployment "test-1".
Definition dep2 : Deployment.t := testDeployment "test-2".
Definition cfg1 : Config.t := Config.mk "test-1" "test" TestNamespace "".
Definition cfg2 : Config.t := Config.mk "test-2" "test" TestNamespace "".
Definition cfg3 : Config.t := Config.mk "test-2" "test2" TestNamespace "".

Module tCase.
Record t := mk {
  expectedError : option error;
  expectedOk : bool;
  c : Config.t;
  d : Deployment.t
}.
End tCase.

Definition tCases : list tCase.t :=
  [ (* Case 0: should pass, returns true, nil. *)
    tCase.mk None true cfg1 dep1;
    (* Case 1: CA found is wrong version, should return false, nil. *)
    tCase.mk None false cfg2 dep1;
    (* Case 2: No CA in namespace, returns true, nil. *)
    tCase.mk None true cfg3 dep1;
    (* Case 3: No deployment found, returns false, nil. *)
    tCase.mk None false cfg1 Deployment.zero;
    (* Case 4: Deployment wrong annotation, returns false, nil. *)
    tCase.mk None false cfg1 dep2 ].

(** The body of the loop of the test: the reconciler of a case, and what
    [AvailableAndUpdated] answers for it. *)
Definition tCaseReconciler (tc : tCase.t) : Reconciler.t FakeClient :=
  let ca := NewClusterAutoscaler in
  let r := newFakeReconciler [Object_ClusterAutoscaler ca; Object_Deployment (tCase.d tc)] in
  SetConfig r (tCase.c tc).

Definition tCasePasses (tc : tCase.t) : bool :=
  let '(ok, err) := AvailableAndUpdated (tCaseReconciler tc) in
  bool_decide (ok = tCase.expectedOk tc) && bool_decide (err = tCase.expectedError tc).

(** The availability claim as the specification states it, for a
    reconciler: a positive answer only when the workload of the expected derived name is in the expected
    namespace, has an available replica and carries the configured release
    version. *)
Definition availableOnlyWithWorkload {C} `{!Client C} (r : Reconciler.t C) : Prop :=
  let cfg := Reconciler.config r in
  (AvailableAndUpdated r).1 = true →
  ∃ dep,
    client_Get_Deployment (Reconciler.client r) (Config.Namespace cfg)
      ("cluster-autoscaler-" +:+ Config.Name cfg) = inr dep
    ∧ (1 ≤ DeploymentStatus.AvailableReplicas (Deployment.Status dep))%Z
    ∧ default "" (ObjectMeta.Annotations (Deployment.ObjectMeta dep)
                    !! releaseVersionAnnotation)
      = Config.ReleaseVersion cfg.

(** A flag of the given name stands in the argument list exactly once, with
    the given value, when there is a value; no argument starts with the name
    when there is none. *)
Definition flagOnceIfSet (args : list string) (name : string) (value : option string) : Prop :=
  match value with
  | Some v =>
      countStringsWithPrefix args name = 1
      ∧ includeString args (name +:+ "=" +:+ v) = true
  | None => includesStringWithPrefix args name = false
  end.

(** The number of flags an optional field gives. *)
Definition flagCount {A} (field : option A) : nat :=
  match field with Some _ => 1 | None => 0 end.

End clusterautoscaler.

(** ** The builders on a heap

    The builders of handler.go once more, this time with the pointers and
    maps of Go as addresses of cells of a heap: [&x] and a map literal
    allocate a cell, [*p] and a field read through a pointer load one, and
    [SetOwnerReferences] on a pointer stores one.  A computation runs on the
    heap and the process state, and answers [None] when it dereferences a
    pointer that holds no value of the type (a panic).  Slices are their
    contents: the builders never write through one. *)

Module goheap.

(** An address: the index of a cell. *)
Abbreviation addr := nat.

Module RawOwnerReference.
Record t := mk {
  APIVersion : string;
  Kind : string;
  Name : string;
  UID : string;
  Controller : option addr
}.
End RawOwnerReference.

Module RawObjectMeta.
Record t := mk {
  Name : string;
  Namespace : string;
  UID : string;
  ResourceVersion : string;
  Generation : Z;
  Labels : option addr;
  Annotations : option addr;
  OwnerReferences : list RawOwnerReference.t
}.
End RawObjectMeta.

Module RawLabelSelector.
Record t := mk { MatchLabels : option addr }.
End RawLabelSelector.

Module RawPodTemplateSpec.
Record t := mk { ObjectMeta : RawObjectMeta.t; Spec : PodSpec.t }.
End RawPodTemplateSpec.

Module RawDeploymentSpec.
Record t := mk {
  Replicas : option addr;
  Selector : option addr;
  Template : RawPodTemplateSpec.t
}.
End RawDeploymentSpec.

Module RawDeployment.
Record t := mk {
  TypeMeta : TypeMeta.t;
  ObjectMeta : RawObjectMeta.t;
  Spec : RawDeploymentSpec.t;
  Status : DeploymentStatus.t
}.
Definition GetOwnerReferences (dep : t) : list RawOwnerReference.t :=
  RawObjectMeta.OwnerReferences (ObjectMeta dep).
Definition SetOwnerReferences (dep : t) (refs : list RawOwnerReference.t) : t :=
  let m := ObjectMeta dep in
  mk (TypeMeta dep)
     (RawObjectMeta.mk (RawObjectMeta.Name m) (RawObjectMeta.Namespace m)
        (RawObjectMeta.UID m) (RawObjectMeta.ResourceVersion m)
        (RawObjectMeta.Generation m) (RawObjectMeta.Labels m)
        (RawObjectMeta.Annotations m) refs)
     (Spec dep) (Status dep).
End RawDeployment.

(** What a cell of the heap holds.  The configuration resource is held with
    its own pointer fields by value: the builders only read it. *)
Inductive cell :=
  | Cell_int32 (v : Z)
  | Cell_bool (v : bool)
  | Cell_map (m : gmap string string)
  | Cell_LabelSelector (v : RawLabelSelector.t)
  | Cell_PodSpec (v : PodSpec.t)
  | Cell_Deployment (v : RawDeployment.t)
  | Cell_ClusterAutoscaler (v : ClusterAutoscaler.t).

Record GoState (W : Type) := mkGoState { heap : list cell; proc : State W }.
Arguments mkGoState {W} _ _.
Arguments heap {W} _.
Arguments proc {W} _.

Definition G (W A : Type) : Type := GoState W → option A * GoState W.

#[global] Instance G_ret {W} : MRet (G W) := λ A (a : A) s, (Some a, s).
#[global] Instance G_bind {W} : MBind (G W) := λ A B (f : A → G W B) (m : G W A) s,
  match m s with
  | (Some a, s') => f a s'
  | (None, s') => (None, s')
  end.

Definition panic {W A} : G W A := λ s, (None, s).

(** Allocation: a new cell after the last one. *)
Definition new {W} (c : cell) : G W addr := λ s,
  (Some (length (heap s)), mkGoState (heap s ++ [c]) (proc s)).

Definition load {W} (a : addr) : G W cell := λ s, (heap s !! a, s).

Definition storeCell {W} (a : addr) (c : cell) : G W unit := λ s,
  if bool_decide (a < length (heap s))
  then (Some tt, mkGoState (<[a := c]> (heap s)) (proc s))
  else (None, s).

Definition load_ClusterAutoscaler {W} (a : addr) : G W ClusterAutoscaler.t :=
  c ← load a;
  match c with Cell_ClusterAutoscaler v => mret v | _ => panic end.

Definition load_PodSpec {W} (a : addr) : G W PodSpec.t :=
  c ← load a;
  match c with Cell_PodSpec v => mret v | _ => panic end.

Definition load_Deployment {W} (a : addr) : G W RawDeployment.t :=
  c ← load a;
  match c with Cell_Deployment v => mret v | _ => panic end.

(** [AutoscalerArgs(ca)], which handler.go calls and does not define, as a
    computation on the pointer. *)
Class GoArgsBuilder (W : Type) := AutoscalerArgs : addr → G W (list string).

(** The computation that loads the resource and applies a function to it. *)
Definition liftArgs {W} (f : autoscaler.ArgsBuilder) : GoArgsBuilder W :=
  λ ca, v ← load_ClusterAutoscaler ca; mret (f v).

Section builders.
Context {W : Type} `{GAB : !GoArgsBuilder W}.

Definition asOwner (ca : addr) : G W RawOwnerReference.t :=
  trueVar ← new (Cell_bool true);
  v ← load_ClusterAutoscaler ca;
  mret (RawOwnerReference.mk
          (ClusterAutoscaler.APIVersion v)
          (ClusterAutoscaler.Kind v)
          (ClusterAutoscaler.Name v)
          (ClusterAutoscaler.UID v)
          (Some trueVar)).

Definition addOwnerRefToObject (obj : addr) (ownerRef : RawOwnerReference.t) : G W unit :=
  d ← load_Deployment obj;
  storeCell obj
    (Cell_Deployment
       (RawDeployment.SetOwnerReferences d
          (RawDeployment.GetOwnerReferences d ++ [ownerRef]))).

Definition autoscalerPodSpec (ca : addr) : G W addr :=
  args ← AutoscalerArgs ca;
  new (Cell_PodSpec
         (PodSpec.mk
            autoscaler.caServiceAccount
            [ Container.mk "cluster-autoscaler" autoscaler.caImage
                ["/cluster-autoscaler"] args ]
            [ Toleration.mk "CriticalAddonsOnly" TolerationOpExists ]
            "" "" "")).

Definition autoscalerDeployment (ca : addr) : G W addr :=
  replicas ← new (Cell_int32 1);
  v ← load_ClusterAutoscaler ca;
  let deploymentName := "cluster-autoscaler-" +:+ ClusterAutoscaler.Name v in
  labels ← new (Cell_map (<["cluster-autoscaler" := ClusterAutoscaler.Name v]>
                            (<["app" := "cluster-autoscaler"]> ∅)));
  annotations ← new (Cell_map (<[autoscaler.criticalPod := ""]> ∅));
  podSpec ← autoscalerPodSpec ca;
  selector ← new (Cell_LabelSelector (RawLabelSelector.mk (Some labels)));
  podSpecValue ← load_PodSpec podSpec;
  dep ← new (Cell_Deployment
               (RawDeployment.mk
                  (TypeMeta.mk "apps/v1" "Deployment")
                  (RawObjectMeta.mk deploymentName (ClusterAutoscaler.Namespace v)
                     "" "" 0 None None [])
                  (RawDeploymentSpec.mk
                     (Some replicas)
                     (Some selector)
                     (RawPodTemplateSpec.mk
                        (RawObjectMeta.mk "" "" "" "" 0 (Some labels) (Some annotations) [])
                        podSpecValue))
                  DeploymentStatus.zero));
  ownerRef ← asOwner ca;
  _ ← addOwnerRefToObject dep ownerRef;
  mret dep.
End builders.

(** *** Reading a value back from the heap, pointers followed *)

Definition read_int32 (h : list cell) (p : option addr) : option (option Z) :=
  match p with
  | None => Some None
  | Some a => match h !! a with Some (Cell_int32 v) => Some (Some v) | _ => None end
  end.

Definition read_bool (h : list cell) (p : option addr) : option (option bool) :=
  match p with
  | None => Some None
  | Some a => match h !! a with Some (Cell_bool v) => Some (Some v) | _ => None end
  end.

(** A nil map reads as the empty map. *)
Definition read_map (h : list cell) (p : option addr) : option (gmap string string) :=
  match p with
  | None => Some ∅
  | Some a => match h !! a with Some (Cell_map m) => Some m | _ => None end
  end.

Definition read_OwnerReference (h : list cell) (r : RawOwnerReference.t)
    : option OwnerReference.t :=
  controller ← read_bool h (RawOwnerReference.Controller r);
  Some (OwnerReference.mk (RawOwnerReference.APIVersion r) (RawOwnerReference.Kind r)
          (RawOwnerReference.Name r) (RawOwnerReference.UID r) controller).

Definition read_ObjectMeta (h : list cell) (m : RawObjectMeta.t) : option ObjectMeta.t :=
  labels ← read_map h (RawObjectMeta.Labels m);
  annotations ← read_map h (RawObjectMeta.Annotations m);
  refs ← mapM (read_OwnerReference h) (RawObjectMeta.OwnerReferences m);
  Some (ObjectMeta.mk (RawObjectMeta.Name m) (RawObjectMeta.Namespace m)
          (RawObjectMeta.UID m) (RawObjectMeta.ResourceVersion m)
          (RawObjectMeta.Generation m) labels annotations refs).

Definition read_LabelSelector (h : list cell) (p : option addr)
    : option (option LabelSelector.t) :=
  match p with
  | None => Some None
  | Some a =>
      match h !! a with
      | Some (Cell_LabelSelector v) =>
          m ← read_map h (RawLabelSelector.MatchLabels v);
          Some (Some (LabelSelector.mk m))
      | _ => None
      end
  end.

Definition read_Deployment (h : list cell) (a : addr) : option Deployment.t :=
  match h !! a with
  | Some (Cell_Deployment d) =>
      let spec := RawDeployment.Spec d in
      let template := RawDeploymentSpec.Template spec in
      meta ← read_ObjectMeta h (RawDeployment.ObjectMeta d);
      replicas ← read_int32 h (RawDeploymentSpec.Replicas spec);
      selector ← read_LabelSelector h (RawDeploymentSpec.Selector spec);
      templateMeta ← read_ObjectMeta h (RawPodTemplateSpec.ObjectMeta template);
      Some (Deployment.mk (RawDeployment.TypeMeta d) meta
              (DeploymentSpec.mk replicas selector
                 (PodTemplateSpec.mk templateMeta (RawPodTemplateSpec.Spec template)))
              (RawDeployment.Status d))
  | _ => None
  end.

Definition read_PodSpec (h : list cell) (a : addr) : option PodSpec.t :=
  match h !! a with
  | Some (Cell_PodSpec v) => Some v
  | _ => None
  end.

(** The state with cells added after those of the heap. *)
Definition ext {W} (st : GoState W) (cells : list cell) : GoState W :=
  mkGoState (heap st ++ cells) (proc st).

(** The cells a run of [autoscalerDeployment] adds to a heap of [n] cells, for
    a resource [v] and the pure builder of the pod spec. *)
Definition deploymentCells `{!autoscaler.ArgsBuilder} (n : nat) (v : ClusterAutoscaler.t)
    : list cell :=
  let labels : gmap string string :=
    <["cluster-autoscaler" := ClusterAutoscaler.Name v]>
      (<["app" := "cluster-autoscaler"]> ∅) in
  [ Cell_int32 1;
    Cell_map labels;
    Cell_map (<[autoscaler.criticalPod := ""]> ∅);
    Cell_PodSpec (autoscaler.autoscalerPodSpec v);
    Cell_LabelSelector (RawLabelSelector.mk (Some (n + 1)));
    Cell_Deployment
      (RawDeployment.mk
         (TypeMeta.mk "apps/v1" "Deployment")
         (RawObjectMeta.mk ("cluster-autoscaler-" +:+ ClusterAutoscaler.Name v)
            (ClusterAutoscaler.Namespace v) "" "" 0 None None
            [ RawOwnerReference.mk (ClusterAutoscaler.APIVersion v)
                (ClusterAutoscaler.Kind v) (ClusterAutoscaler.Name v)
                (ClusterAutoscaler.UID v) (Some (n + 6)) ])
         (RawDeploymentSpec.mk (Some (n + 0)) (Some (n + 4))
            (RawPodTemplateSpec.mk
               (RawObjectMeta.mk "" "" "" "" 0 (Some (n + 1)) (Some (n + 2)) [])
               (autoscaler.autoscalerPodSpec v)))
         DeploymentStatus.zero);
    Cell_bool true ].

End goheap.

(** ** Concrete inputs for the handler *)

(** The arguments of the handler's pod spec in the concrete runs: those of
    [clusterautoscaler.AutoscalerArgs] under the settings of the test. *)
Definition testArgsBuilder : autoscaler.ArgsBuilder :=
  λ ca, clusterautoscaler.AutoscalerArgs
          (RF := clusterautoscaler.testRangeFlags) ca
          (clusterautoscaler.Config.mk "" ""
             clusterautoscaler.TestNamespace clusterautoscaler.TestCloudProvider).

Definition testHandler : autoscaler.Handler :=
  autoscaler.NewHandler
    (autoscaler.mkMetrics
       (autoscaler.mkCounter "memcached_operator_reconcile_errors_total" 0)).

(** An event that carries the configuration resource of the test file. *)
Definition testEvent (deleted : bool) : autoscaler.Event.t :=
  autoscaler.Event.mk
    (Object_ClusterAutoscaler clusterautoscaler.NewClusterAutoscaler) deleted.

Definition serverTimeout : error :=
  StatusError StatusReasonServerTimeout "the server was unable to return a response in time".

(** A stored workload that has drifted: three replicas, a label of its own,
    another image and no toleration. *)
Definition driftedDeployment : Deployment.t :=
  Deployment.mk (TypeMeta.mk "apps/v1" "Deployment")
    (ObjectMeta.mk "cluster-autoscaler-test" "test" "uid-1" "42" 7
       (<["team" := "infra"]> ∅) ∅ [])
    (DeploymentSpec.mk (Some 3%Z) None
       (PodTemplateSpec.mk
          (ObjectMeta.mk "" "" "" "" 0 (<["app" := "other"]> ∅) ∅ [])
          (PodSpec.mk "default"
             [Container.mk "cluster-autoscaler" "example.org/other:1" [] []]
             [] "Always" "ClusterFirst" "default-scheduler")))
    (DeploymentStatus.mk 7 3 3 3).

Definition isClusterAutoscaler (o : Object) : bool :=
  match o with
  | Object_ClusterAutoscaler _ => true
  | _ => false
  end.

(** The calls added to the log by a run that started in [s] and ended in
    [s']. *)
Definition newCalls {W} (s s' : State W) : list sdkCall :=
  drop (length (calls s)) (calls s').

(** * Properties *)

(** ** The handler *)

Section handler_properties.
Context `{AB : !autoscaler.ArgsBuilder} {W : Type} `{OS : !ObjectStore W}.
Import autoscaler.

Lemma DeepEqual_value_pointer (v : PodSpec.t) (p : option PodSpec.t) :
  reflect_DeepEqual (iface_PodSpec v) (iface_ptr_PodSpec p) = false.
Proof. reflexivity. Qed.

Lemma sdk_Create_run (object : Deployment.t) (s : State W) err w :
  store_Create object (store s) = (err, w) →
  sdk_Create object s = (err, logCall (CallCreate object) w s).
Proof. intros E. unfold sdk_Create. now rewrite E. Qed.

Lemma sdk_Get_run (into : Deployment.t) (s : State W) err into' w :
  store_Get into (store s) = (err, into', w) →
  sdk_Get into s = ((err, into'), logCall (CallGet into) w s).
Proof. intros E. unfold sdk_Get. now rewrite E. Qed.

Lemma sdk_Update_run (object : Deployment.t) (s : State W) err w :
  store_Update object (store s) = (err, w) →
  sdk_Update object s = (err, logCall (CallUpdate object) w s).
Proof. intros E. unfold sdk_Update. now rewrite E. Qed.

(** What [updateAutoscaler] does when the fetch fails. *)
Lemma updateAutoscaler_Get_error ca (s : State W) e into' w :
  store_Get (autoscalerDeployment ca) (store s) = (Some e, into', w) →
  updateAutoscaler ca s
  = (Some (fmt_Errorf "failed to get autoscaler deployment: " (Some e)),
     logCall (CallGet (autoscalerDeployment ca)) w s).
Proof.
  intros E. unfold updateAutoscaler, mbind, M_bind.
  rewrite (sdk_Get_run _ _ _ _ _ E). reflexivity.
Qed.

(** What [updateAutoscaler] does when the fetch succeeds: the comparison of a
    [PodSpec] with a pointer to one is never true, and the update is made. *)
Lemma updateAutoscaler_Get_ok ca (s : State W) fetched w err w' :
  store_Get (autoscalerDeployment ca) (store s) = (None, fetched, w) →
  store_Update (Deployment.set_Spec_Template_Spec fetched (autoscalerPodSpec ca)) w
  = (err, w') →
  updateAutoscaler ca s
  = (match err with
     | Some _ => Some (fmt_Errorf "failed to update autoscaler deployment: " err)
     | None => None
     end,
     logCall (CallUpdate (Deployment.set_Spec_Template_Spec fetched (autoscalerPodSpec ca)))
       w' (logCall (CallGet (autoscalerDeployment ca)) w s)).
Proof.
  intros EG EU. unfold updateAutoscaler, mbind, M_bind.
  rewrite (sdk_Get_run _ _ _ _ _ EG). cbn.
  rewrite DeepEqual_value_pointer. cbn.
  rewrite (sdk_Update_run _ (logCall _ w s) err w') by exact EU.
  destruct err; reflexivity.
Qed.

(** The calls of [updateAutoscaler]: the fetch, then at most the update. *)
Lemma updateAutoscaler_calls ca (s : State W) :
  ∃ rest, calls (updateAutoscaler ca s).2
          = calls s ++ CallGet (autoscalerDeployment ca) :: rest.
Proof.
  destruct (store_Get (autoscalerDeployment ca) (store s)) as [[[e|] into'] w] eqn:EG.
  - rewrite (updateAutoscaler_Get_error _ _ _ _ _ EG). now exists [].
  - destruct (store_Update
                (Deployment.set_Spec_Template_Spec into' (autoscalerPodSpec ca)) w)
      as [err w'] eqn:EU.
    rewrite (updateAutoscaler_Get_ok _ _ _ _ _ _ EG EU). cbn.
    rewrite <- app_assoc. now eexists.
Qed.

(** Neither [updateAutoscaler] nor [Handle] touches a counter. *)
Lemma updateAutoscaler_counters ca (s : State W) :
  counters (updateAutoscaler ca s).2 = counters s.
Proof.
  destruct (store_Get (autoscalerDeployment ca) (store s)) as [[[e|] into'] w] eqn:EG.
  - now rewrite (updateAutoscaler_Get_error _ _ _ _ _ EG).
  - destruct (store_Update
                (Deployment.set_Spec_Template_Spec into' (autoscalerPodSpec ca)) w)
      as [err w'] eqn:EU.
    now rewrite (updateAutoscaler_Get_ok _ _ _ _ _ _ EG EU).
Qed.

Lemma Handle_counters h ev (s : State W) :
  counters (Handle h ev s).2 = counters s.
Proof.
  unfold Handle. destruct (Event.Object ev); try reflexivity.
  destruct (Event.Deleted ev); try reflexivity.
  unfold mbind, M_bind.
  destruct (store_Create (autoscalerDeployment o) (store s)) as [err w] eqn:EC.
  rewrite (sdk_Create_run _ _ _ _ EC).
  destruct (bool_decide (err ≠ None) && negb (IsAlreadyExists err)); [reflexivity|].
  destruct (IsAlreadyExists err); [|reflexivity].
  now rewrite updateAutoscaler_counters.
Qed.

(** C1. For an event that carries a configuration resource and is no
    deletion, [Handle] first calls [sdk.Create] with the deployment built.
    When the create fails with an already-exists error, [Handle] answers what
    the update path answers, run after the create.  When it fails with any
    other error, [Handle] answers the error "failed to create autoscaler
    deployment: ..." that wraps the message of the failure, and the create is
    the only call made: the update path is not entered. *)
Theorem Handle_create_then_update_or_fail h ca (s : State W) err w :
  store_Create (autoscalerDeployment ca) (store s) = (err, w) →
  let dep := autoscalerDeployment ca in
  let s1 := logCall (CallCreate dep) w s in
  let r := Handle h (Event.mk (Object_ClusterAutoscaler ca) false) s in
  (∃ rest, calls r.2 = calls s ++ CallCreate dep :: rest)
  ∧ (IsAlreadyExists err = true → r = updateAutoscaler ca s1)
  ∧ (∀ e, err = Some e → IsAlreadyExists err = false →
       r.1 = Some (errorString ("failed to create autoscaler deployment: " +:+ Error e))
       ∧ r.2 = s1
       ∧ calls r.2 = calls s ++ [CallCreate dep]).
Proof.
  intros EC dep s1 r.
  assert (Hr : r = if bool_decide (err ≠ None) && negb (IsAlreadyExists err)
                   then (Some (fmt_Errorf "failed to create autoscaler deployment: " err), s1)
                   else if IsAlreadyExists err then updateAutoscaler ca s1
                   else (None, s1)).
  { subst r. unfold Handle, mbind, M_bind. cbn.
    rewrite (sdk_Create_run _ _ _ _ EC). fold dep s1.
    destruct (bool_decide (err ≠ None) && negb (IsAlreadyExists err)); [reflexivity|].
    destruct (IsAlreadyExists err); reflexivity. }
  split; [|split].
  - rewrite Hr.
    destruct (bool_decide (err ≠ None) && negb (IsAlreadyExists err)).
    { now exists []. }
    destruct (IsAlreadyExists err).
    + destruct (updateAutoscaler_calls ca s1) as [rest Hrest].
      rewrite Hrest. subst s1. cbn. rewrite <- app_assoc. now eexists.
    + now exists [].
  - intros Hae. rewrite Hr, Hae. cbn. now rewrite andb_false_r.
  - intros e -> Hae. rewrite Hr, Hae. cbn. auto.
Qed.

(** C5. In the update path, when the fetch of the existing workload fails,
    [updateAutoscaler] answers the error "failed to get autoscaler
    deployment: ..." that wraps the message of the failure; the fetch is the
    only call it makes, so no update reaches the store, which is left as the
    failed fetch left it. *)
Theorem updateAutoscaler_fetch_failure ca (s : State W) e into' w :
  store_Get (autoscalerDeployment ca) (store s) = (Some e, into', w) →
  let r := updateAutoscaler ca s in
  r.1 = Some (errorString ("failed to get autoscaler deployment: " +:+ Error e))
  ∧ calls r.2 = calls s ++ [CallGet (autoscalerDeployment ca)]
  ∧ store r.2 = w
  ∧ Forall (λ c, isUpdate c = false) (drop (length (calls s)) (calls r.2)).
Proof.
  intros EG r. subst r. rewrite (updateAutoscaler_Get_error _ _ _ _ _ EG). cbn.
  repeat split. rewrite drop_app_length. repeat constructor.
Qed.

(** C6. For an event that carries a configuration resource with the deletion
    flag set, [Handle] answers nil and leaves the process state as it was: no
    call reaches the store. *)
Theorem Handle_ignores_deletes h ca (s : State W) :
  Handle h (Event.mk (Object_ClusterAutoscaler ca) true) s = (None, s).
Proof. reflexivity. Qed.

(** C9. Every update that the update path sends to the store carries the
    workload that was fetched, with the pod spec of its pod template replaced
    by the pod spec just built: type and object metadata, replicas, selector,
    the labels and annotations of the pod template and the status are those
    of the fetched workload, whatever they are. *)
Theorem updateAutoscaler_update_frame ca (s : State W) fetched w d :
  store_Get (autoscalerDeployment ca) (store s) = (None, fetched, w) →
  CallUpdate d ∈ drop (length (calls s)) (calls (updateAutoscaler ca s).2) →
  d = Deployment.set_Spec_Template_Spec fetched (autoscalerPodSpec ca)
  ∧ PodTemplateSpec.Spec (DeploymentSpec.Template (Deployment.Spec d))
    = autoscalerPodSpec ca
  ∧ Deployment.TypeMeta d = Deployment.TypeMeta fetched
  ∧ Deployment.ObjectMeta d = Deployment.ObjectMeta fetched
  ∧ DeploymentSpec.Replicas (Deployment.Spec d)
    = DeploymentSpec.Replicas (Deployment.Spec fetched)
  ∧ DeploymentSpec.Selector (Deployment.Spec d)
    = DeploymentSpec.Selector (Deployment.Spec fetched)
  ∧ PodTemplateSpec.ObjectMeta (DeploymentSpec.Template (Deployment.Spec d))
    = PodTemplateSpec.ObjectMeta (DeploymentSpec.Template (Deployment.Spec fetched))
  ∧ Deployment.Status d = Deployment.Status fetched.
Proof.
  intros EG Hin.
  destruct (store_Update
              (Deployment.set_Spec_Template_Spec fetched (autoscalerPodSpec ca)) w)
    as [err w'] eqn:EU.
  rewrite (updateAutoscaler_Get_ok _ _ _ _ _ _ EG EU) in Hin. cbn in Hin.
  rewrite <- app_assoc, drop_app_length in Hin. cbn in Hin.
  apply elem_of_cons in Hin as [Hin|Hin]; [discriminate|].
  apply elem_of_cons in Hin as [Hin|Hin]; [|now apply elem_of_nil in Hin].
  injection Hin as ->. repeat split.
Qed.

(** C10. For an event whose object is no configuration resource, [Handle]
    answers nil and leaves the process state as it was: no call reaches the
    store. *)
Theorem Handle_ignores_other_objects h ev (s : State W) :
  isClusterAutoscaler (Event.Object ev) = false →
  Handle h ev s = (None, s).
Proof.
  intros Hk. unfold Handle. destruct (Event.Object ev); [discriminate|reflexivity..].
Qed.

End handler_properties.

(** ** The desired-state builder *)

Section builder_properties.
Context `{AB : !autoscaler.ArgsBuilder} {W : Type} `{GAB : !goheap.GoArgsBuilder W}.
Import goheap.

Lemma ext_nil (st : GoState W) : ext st [] = st.
Proof. destruct st as [h p]. unfold ext. cbn. now rewrite app_nil_r. Qed.

Lemma lookup_ext (st : GoState W) cells k :
  heap (ext st cells) !! (length (heap st) + k) = cells !! k.
Proof.
  cbn. rewrite lookup_app_r by lia. f_equal. lia.
Qed.

Lemma lookup_ext_old (st : GoState W) cells a c :
  heap st !! a = Some c → heap (ext st cells) !! a = Some c.
Proof. intros H. cbn. now apply lookup_app_l_Some. Qed.

Lemma G_bind_Some {A B} (m : G W A) (f : A → G W B) st a st' :
  m st = (Some a, st') → (m ≫= f) st = f a st'.
Proof. intros E. unfold mbind, G_bind. now rewrite E. Qed.

Lemma new_ext (st : GoState W) cells c :
  new c (ext st cells)
  = (Some (length (heap st) + length cells), ext st (cells ++ [c])).
Proof. unfold new, ext. cbn. now rewrite length_app, app_assoc. Qed.

Lemma load_ClusterAutoscaler_ext (st : GoState W) cells ca v :
  heap st !! ca = Some (Cell_ClusterAutoscaler v) →
  load_ClusterAutoscaler ca (ext st cells) = (Some v, ext st cells).
Proof.
  intros H. pose proof (lookup_ext_old st cells ca _ H) as H'.
  unfold load_ClusterAutoscaler, load, mbind, G_bind. cbn in *. now rewrite H'.
Qed.

Lemma load_PodSpec_ext (st : GoState W) cells k v :
  cells !! k = Some (Cell_PodSpec v) →
  load_PodSpec (length (heap st) + k) (ext st cells) = (Some v, ext st cells).
Proof.
  intros H. pose proof (lookup_ext st cells k) as H'. rewrite H in H'.
  unfold load_PodSpec, load, mbind, G_bind. cbn in *. now rewrite H'.
Qed.

Lemma load_Deployment_ext (st : GoState W) cells k v :
  cells !! k = Some (Cell_Deployment v) →
  load_Deployment (length (heap st) + k) (ext st cells) = (Some v, ext st cells).
Proof.
  intros H. pose proof (lookup_ext st cells k) as H'. rewrite H in H'.
  unfold load_Deployment, load, mbind, G_bind. cbn in *. now rewrite H'.
Qed.

Lemma storeCell_ext (st : GoState W) cells k c :
  k < length cells →
  storeCell (length (heap st) + k) c (ext st cells)
  = (Some tt, ext st (<[k := c]> cells)).
Proof.
  intros H. unfold storeCell, ext. cbn.
  rewrite bool_decide_eq_true_2 by (rewrite length_app; lia).
  rewrite insert_app_r_alt by lia.
  now replace (length (heap st) + k - length (heap st)) with k by lia.
Qed.

(** What is assumed of the absent [AutoscalerArgs]: it answers a list that
    depends on the resource alone, and changes nothing. *)
Hypothesis args_pure :
  ∀ ca v (st : GoState W),
    heap st !! ca = Some (Cell_ClusterAutoscaler v) →
    AutoscalerArgs ca st = (Some (autoscaler.AutoscalerArgs v), st).

Lemma autoscalerPodSpec_ext (st : GoState W) cells ca v :
  heap st !! ca = Some (Cell_ClusterAutoscaler v) →
  autoscalerPodSpec ca (ext st cells)
  = (Some (length (heap st) + length cells),
     ext st (cells ++ [Cell_PodSpec (autoscaler.autoscalerPodSpec v)])).
Proof.
  intros H. unfold autoscalerPodSpec.
  rewrite (G_bind_Some _ _ _ _ _
             (args_pure ca v (ext st cells) (lookup_ext_old st cells ca _ H))).
  apply new_ext.
Qed.

Lemma autoscalerDeployment_run (st : GoState W) ca v :
  heap st !! ca = Some (Cell_ClusterAutoscaler v) →
  autoscalerDeployment ca st
  = (Some (length (heap st) + 5), ext st (deploymentCells (length (heap st)) v)).
Proof.
  intros H. rewrite <- (ext_nil st) at 1. unfold autoscalerDeployment, asOwner,
    addOwnerRefToObject.
  erewrite G_bind_Some by apply new_ext.
  erewrite G_bind_Some by (apply load_ClusterAutoscaler_ext; exact H).
  erewrite G_bind_Some by apply new_ext.
  erewrite G_bind_Some by apply new_ext.
  erewrite G_bind_Some by (apply autoscalerPodSpec_ext; exact H).
  erewrite G_bind_Some by apply new_ext.
  erewrite G_bind_Some by (apply load_PodSpec_ext; reflexivity).
  erewrite G_bind_Some by apply new_ext.
  erewrite G_bind_Some.
  2:{ erewrite G_bind_Some by apply new_ext.
      erewrite G_bind_Some by (apply load_ClusterAutoscaler_ext; exact H).
      reflexivity. }
  erewrite G_bind_Some.
  2:{ erewrite G_bind_Some by (apply load_Deployment_ext; reflexivity).
      apply storeCell_ext. cbn. lia. }
  reflexivity.
Qed.


Lemma lookup_ext_cells (st : GoState W) cells k :
  (heap st ++ cells) !! (length (heap st) + k) = cells !! k.
Proof. apply (lookup_ext st cells k). Qed.

Lemma read_Deployment_run (st : GoState W) v :
  read_Deployment (heap (ext st (deploymentCells (length (heap st)) v)))
    (length (heap st) + 5)
  = Some (autoscaler.autoscalerDeployment v).
Proof.
  unfold read_Deployment, read_ObjectMeta, read_LabelSelector, read_map, read_int32,
    read_OwnerReference, read_bool, ext. cbn [heap].
  rewrite !lookup_ext_cells. cbn.
  rewrite !lookup_ext_cells. cbn.
  rewrite !lookup_ext_cells. reflexivity.
Qed.


End builder_properties.

(** The computation that loads the resource and applies a function to it is
    what [builder_deterministic] assumes of [AutoscalerArgs]. *)
Lemma liftArgs_pure {W} (f : autoscaler.ArgsBuilder) ca v (st : goheap.GoState W) :
  goheap.heap st !! ca = Some (goheap.Cell_ClusterAutoscaler v) →
  goheap.liftArgs f ca st = (Some (f v), st).
Proof.
  intros H. unfold goheap.liftArgs, goheap.load_ClusterAutoscaler, goheap.load,
    mbind, goheap.G_bind. now rewrite H.
Qed.

(** ** The availability predicate *)

Section availability.
Import clusterautoscaler.

(** The model passes every case of [TestAvailableAndUpdated]. *)
Lemma TestAvailableAndUpdated_passes : forallb tCasePasses tCases = true.
Proof. vm_compute. reflexivity. Qed.

(** C3, as stated, fails on case 2 of [TestAvailableAndUpdated]: the settings
    name the configuration resource [test2] and the release version [test-2],
    no workload [cluster-autoscaler-test2] is in the store, the one workload
    there carries the version [test-1], and the answer the test expects, and
    gets, is true with no error. *)
Lemma AvailableAndUpdated_true_without_workload :
  let tc := tCase.mk None true cfg3 dep1 in
  let r := tCaseReconciler tc in
  tCases !! 2 = Some tc
  ∧ IsNotFound
      (match client_Get_Deployment (Reconciler.client r) "test" "cluster-autoscaler-test2" with
       | inl e => Some e
       | inr _ => None
       end) = true
  ∧ Forall (λ o, match o with
                 | Object_Deployment d =>
                     default "" (ObjectMeta.Annotations (Deployment.ObjectMeta d)
                                   !! releaseVersionAnnotation)
                     ≠ Config.ReleaseVersion (Reconciler.config r)
                 | _ => True
                 end) (Reconciler.client r)
  ∧ AvailableAndUpdated r = (true, None)
  ∧ ¬ availableOnlyWithWorkload r.
Proof.
  cbv zeta. split; [reflexivity|]. split; [vm_compute; reflexivity|].
  split. { repeat constructor. vm_compute. discriminate. }
  split; [vm_compute; reflexivity|].
  intros Hclaim. destruct Hclaim as (dep & Hget & _); [vm_compute; reflexivity|].
  vm_compute in Hget. discriminate.
Qed.

(** C3, amended.  [AvailableAndUpdated] answers true exactly when the
    configuration resource named by the settings is not in the store, or it
    is and the workload of the name derived from it is in the expected
    namespace, has at least one available replica and carries the configured
    release version.  It answers an error exactly when one of the two
    lookups fails with an error other than not-found, and then that error,
    with a negative answer.  So a missing workload, a stale version
    annotation and no available replica all give false with no error. *)
Theorem AvailableAndUpdated_characterised {C} `{!Client C} (r : Reconciler.t C) :
  let cfg := Reconciler.config r in
  let getCA := client_Get_ClusterAutoscaler (Reconciler.client r)
                 (Config.Namespace cfg) (Config.Name cfg) in
  let getDep (ca : ClusterAutoscaler.t) :=
    client_Get_Deployment (Reconciler.client r) (Config.Namespace cfg)
      ("cluster-autoscaler-" +:+ ClusterAutoscaler.Name ca) in
  ((AvailableAndUpdated r).1 = true ↔
     (∃ e, getCA = inl e ∧ IsNotFound (Some e) = true)
     ∨ (∃ ca dep, getCA = inr ca ∧ getDep ca = inr dep
          ∧ (1 ≤ DeploymentStatus.AvailableReplicas (Deployment.Status dep))%Z
          ∧ default "" (ObjectMeta.Annotations (Deployment.ObjectMeta dep)
                          !! releaseVersionAnnotation)
            = Config.ReleaseVersion cfg))
  ∧ (∀ e, (AvailableAndUpdated r).2 = Some e ↔
       (getCA = inl e ∧ IsNotFound (Some e) = false)
       ∨ (∃ ca, getCA = inr ca ∧ getDep ca = inl e ∧ IsNotFound (Some e) = false))
  ∧ (∀ ca e, getCA = inr ca → getDep ca = inl e → IsNotFound (Some e) = true →
       AvailableAndUpdated r = (false, None))
  ∧ (∀ ca dep, getCA = inr ca → getDep ca = inr dep →
       (DeploymentStatus.AvailableReplicas (Deployment.Status dep) < 1)%Z
       ∨ default "" (ObjectMeta.Annotations (Deployment.ObjectMeta dep)
                       !! releaseVersionAnnotation)
         ≠ Config.ReleaseVersion cfg →
       AvailableAndUpdated r = (false, None)).
Proof.
  intros cfg getCA getDep. unfold AvailableAndUpdated. fold cfg. fold getCA.
  destruct getCA as [e|ca] eqn:ECA.
  - destruct (IsNotFound (Some e)) eqn:ENF; cbn.
    + split; [|split; [|split]]; try (intros; discriminate).
      * split; [intros _; left; eauto|reflexivity].
      * intros e'. split; [discriminate|].
        intros [[[= <-] H]|(ca & [=] & _)]. congruence.
    + split; [|split; [|split]]; try (intros; discriminate).
      * split; [discriminate|].
        intros [(e' & [= <-] & H)|(ca & dep & [=] & _)]. congruence.
      * intros e'. split.
        -- intros [= <-]. left. auto.
        -- intros [[[= <-] _]|(ca & [=] & _)]. reflexivity.
  - fold (getDep ca). destruct (getDep ca) as [e|dep] eqn:EDEP.
    + destruct (IsNotFound (Some e)) eqn:ENF; cbn.
      * split; [|split; [|split]].
        -- split; [discriminate|].
           intros [(e' & [=] & _)|(ca' & dep & [= <-] & H & _)]. congruence.
        -- intros e'. split; [discriminate|].
           intros [[[=] _]|(ca' & [= <-] & H1 & H2)]. congruence.
        -- reflexivity.
        -- intros ca' dep [= <-] H. congruence.
      * split; [|split; [|split]].
        -- split; [discriminate|].
           intros [(e' & [=] & _)|(ca' & dep & [= <-] & H & _)]. congruence.
        -- intros e'. split.
           ++ intros [= <-]. right. eauto.
           ++ intros [[[=] _]|(ca' & [= <-] & H1 & H2)]. congruence.
        -- intros ca' e' [= <-] H1 H2. congruence.
        -- intros ca' dep [= <-] H. congruence.
    + repeat case_bool_decide; cbn.
      * split; [|split; [|split]].
        -- split; [discriminate|].
           intros [(e' & [=] & _)|(ca' & dep' & [= <-] & H1 & H2 & _)].
           assert (dep' = dep) as -> by congruence. lia.
        -- intros e'. split; [discriminate|].
           intros [[[=] _]|(ca' & [= <-] & H1 & _)]. congruence.
        -- intros ca' e' [= <-] H1. congruence.
        -- reflexivity.
      * split; [|split; [|split]].
        -- split; [discriminate|].
           intros [(e' & [=] & _)|(ca' & dep' & [= <-] & H1 & _ & H2)].
           assert (dep' = dep) as -> by congruence. congruence.
        -- intros e'. split; [discriminate|].
           intros [[[=] _]|(ca' & [= <-] & H1 & _)]. congruence.
        -- intros ca' e' [= <-] H1. congruence.
        -- reflexivity.
      * split; [|split; [|split]].
        -- split; [intros _|reflexivity]. right. exists ca, dep.
           repeat split; [exact EDEP|lia|].
           destruct (decide (default "" (ObjectMeta.Annotations (Deployment.ObjectMeta dep)
                                           !! releaseVersionAnnotation)
                             = Config.ReleaseVersion cfg)) as [Heq|Hne];
             [exact Heq|contradiction].
        -- intros e'. split; [discriminate|].
           intros [[[=] _]|(ca' & [= <-] & H1 & _)]. congruence.
        -- intros ca' e' [= <-] H1. congruence.
        -- intros ca' dep' [= <-] H1 [H2|H2];
             assert (dep' = dep) as -> by congruence; [lia|contradiction].
Qed.

End availability.

(** ** The argument list *)

Section arguments.
Import clusterautoscaler.
Context {RF : RangeFlags}.

Lemma countStringsWithPrefix_app l1 l2 p :
  countStringsWithPrefix (l1 ++ l2) p
  = countStringsWithPrefix l1 p + countStringsWithPrefix l2 p.
Proof. induction l1 as [|x l1 IH]; cbn; [reflexivity|]. rewrite IH. lia. Qed.

Lemma countStringsWithPrefix_flagIfSet {A} (field : option A) format p b :
  (∀ v, String.prefix p (format v) = b) →
  countStringsWithPrefix (flagIfSet field format) p = if b then flagCount field else 0.
Proof.
  intros Hp. destruct field as [v|]; cbn; [|now destruct b].
  rewrite Hp. now destruct b.
Qed.

Lemma countStringsWithPrefix_map {A} (l : list A) format p b :
  (∀ v, String.prefix p (format v) = b) →
  countStringsWithPrefix (List.map format l) p = if b then length l else 0.
Proof.
  intros Hp. induction l as [|x l IH]; cbn; [now destruct b|].
  rewrite Hp, IH. now destruct b.
Qed.

Lemma countStringsWithPrefix_cons x l p b :
  String.prefix p x = b →
  countStringsWithPrefix (x :: l) p = (if b then 1 else 0) + countStringsWithPrefix l p.
Proof. intros <-. reflexivity. Qed.

Lemma includesStringWithPrefix_count l p :
  includesStringWithPrefix l p = false ↔ countStringsWithPrefix l p = 0.
Proof.
  induction l as [|x l IH]; cbn; [tauto|].
  destruct (String.prefix p x); cbn; [split; discriminate|exact IH].
Qed.

Lemma includeString_elem_of l x : includeString l x = true ↔ x ∈ l.
Proof.
  induction l as [|y l IH]; cbn.
  - split; [discriminate|]. intros H. now apply elem_of_nil in H.
  - rewrite elem_of_cons. destruct (String.eqb_spec y x) as [->|Hne].
    + tauto.
    + rewrite IH. split; [tauto|]. intros [->|H]; [contradiction|exact H].
Qed.

Lemma string_app_cons (c : Ascii.ascii) (b x : string) :
  String c b +:+ x = String c (b +:+ x).
Proof. reflexivity. Qed.

Lemma string_app_assoc (b x v : string) : (b +:+ x) +:+ v = b +:+ x +:+ v.
Proof.
  induction b as [|c b IH]; [reflexivity|].
  now rewrite !string_app_cons, IH.
Qed.

(** A string is a prefix of what starts with it. *)
Lemma String_prefix_app (a s : string) : String.prefix a (a +:+ s) = true.
Proof.
  induction a as [|c a IH]; [now destruct s|].
  rewrite string_app_cons. simpl.
  destruct (Ascii.ascii_dec c c); [exact IH|contradiction].
Qed.

(** A prefix of a concatenation is a prefix of its first part, or starts
    with it. *)
Lemma String_prefix_app_inv (a x v : string) :
  String.prefix a (x +:+ v) = true →
  String.prefix a x = true ∨ String.prefix x a = true.
Proof.
  revert x. induction a as [|c a IH]; intros x.
  - intros _. left. now destruct x.
  - destruct x as [|d x].
    + intros _. right. reflexivity.
    + rewrite string_app_cons. simpl.
      destruct (Ascii.ascii_dec c d) as [Heq|Hne]; [|discriminate].
      subst d. destruct (Ascii.ascii_dec c c); [|contradiction]. apply IH.
Qed.

Lemma independent_prefix (a b v : string) :
  independent a b = true → String.prefix a (Value b v) = false.
Proof.
  unfold independent, Value. intros [Ha Hb]%andb_prop.
  apply negb_true_iff in Ha, Hb.
  destruct (String.prefix a (b +:+ "=" +:+ v)) eqn:E; [|reflexivity].
  rewrite <- string_app_assoc in E.
  apply String_prefix_app_inv in E as [E|E]; congruence.
Qed.

(** What [rangeFlagsOk] gives, name by name. *)
Lemma rangeFlagsOk_independent :
  rangeFlagsOk = true →
  Forall (λ n, independent n MemoryTotalArg = true ∧ independent MemoryTotalArg n = true
               ∧ independent n GPUTotalArg = true ∧ independent GPUTotalArg n = true)
    knownFlagNames
  ∧ independent MemoryTotalArg GPUTotalArg = true
  ∧ independent GPUTotalArg MemoryTotalArg = true.
Proof.
  unfold rangeFlagsOk. rewrite !andb_true_iff, forallb_forall.
  intros [[H1 H2] H3]. split; [|auto].
  apply Forall_forall. intros n Hn.
  specialize (H1 n (proj1 (list_elem_of_In _ _) Hn)).
  rewrite !andb_true_iff in H1. tauto.
Qed.


(** The names of the memory and GPU flags are independent of the known names
    and of each other. *)
Hypothesis flags_ok : rangeFlagsOk = true.

(** Whether a flag of one name starts with another name. *)
Ltac prefix_fact :=
  intros;
  first
    [ reflexivity
    | apply String_prefix_app
    | apply independent_prefix;
      pose proof (rangeFlagsOk_independent flags_ok) as (HF & HMG & HGM);
      unfold knownFlagNames in HF;
      repeat (apply Forall_cons in HF as [(? & ? & ? & ?) HF]);
      assumption ].

(** The number of arguments that start with a flag name, for each name. *)
Ltac count_flags :=
  unfold AutoscalerArgs;
  rewrite !countStringsWithPrefix_app;
  repeat first
    [ rewrite (countStringsWithPrefix_flagIfSet _ _ _ true) by prefix_fact
    | rewrite (countStringsWithPrefix_flagIfSet _ _ _ false) by prefix_fact
    | rewrite (countStringsWithPrefix_map _ _ _ true) by prefix_fact
    | rewrite (countStringsWithPrefix_map _ _ _ false) by prefix_fact
    | rewrite (countStringsWithPrefix_cons _ _ _ true) by prefix_fact
    | rewrite (countStringsWithPrefix_cons _ _ _ false) by prefix_fact ];
  cbn [countStringsWithPrefix]; lia.

Lemma count_DelayAfterAdd ca cfg :
  countStringsWithPrefix (AutoscalerArgs ca cfg) ScaleDownDelayAfterAddArg
  = flagCount (fieldDelayAfterAdd ca).
Proof. count_flags. Qed.

Lemma count_UnneededTime ca cfg :
  countStringsWithPrefix (AutoscalerArgs ca cfg) ScaleDownUnneededTimeArg
  = flagCount (fieldUnneededTime ca).
Proof. count_flags. Qed.

Lemma count_PodPriorityThreshold ca cfg :
  countStringsWithPrefix (AutoscalerArgs ca cfg) ExpendablePodsPriorityCutoffArg
  = flagCount (fieldPodPriorityThreshold ca).
Proof. count_flags. Qed.

Lemma count_MaxPodGracePeriod ca cfg :
  countStringsWithPrefix (AutoscalerArgs ca cfg) MaxGracefulTerminationSecArg
  = flagCount (fieldMaxPodGracePeriod ca).
Proof. count_flags. Qed.

Lemma count_Cores ca cfg :
  countStringsWithPrefix (AutoscalerArgs ca cfg) CoresTotalArg
  = flagCount (fieldCores ca).
Proof. count_flags. Qed.

Lemma count_Memory ca cfg :
  countStringsWithPrefix (AutoscalerArgs ca cfg) MemoryTotalArg
  = flagCount (fieldMemory ca).
Proof. count_flags. Qed.

Lemma count_GPUS ca cfg :
  countStringsWithPrefix (AutoscalerArgs ca cfg) GPUTotalArg
  = length (fieldGPUS ca).
Proof. count_flags. Qed.

Lemma count_MaxNodesTotal ca cfg :
  countStringsWithPrefix (AutoscalerArgs ca cfg) MaxNodesTotalArg
  = flagCount (fieldMaxNodesTotal ca).
Proof. count_flags. Qed.

(** From the count of a name and the field to the statement on the flag. *)
Lemma flagOnceIfSet_intro {A} args name (field : option A) (format : A → string) :
  countStringsWithPrefix args name = flagCount field →
  (∀ v, field = Some v → (name +:+ "=" +:+ format v) ∈ args) →
  flagOnceIfSet args name (format <$> field).
Proof.
  intros Hc Hin. destruct field as [v|]; cbn in *.
  - split; [exact Hc|]. apply includeString_elem_of. now apply Hin.
  - now apply includesStringWithPrefix_count.
Qed.

Ltac flag_present :=
  let v := fresh "v" in let E := fresh "E" in
  intros v E; unfold AutoscalerArgs;
  unfold fieldDelayAfterAdd, fieldUnneededTime, fieldPodPriorityThreshold,
    fieldMaxPodGracePeriod, fieldCores, fieldMemory, fieldMaxNodesTotal;
  rewrite E; cbn [flagIfSet];
  rewrite !elem_of_app, !elem_of_cons;
  unfold IntValue, Range, RangeValue, Value; tauto.


(** The model passes [TestAutoscalerArgs], with the flag names of the
    autoscaler's command line for the memory and GPU ranges. *)
Lemma TestAutoscalerArgs_passes :
  TestAutoscalerArgs = true
  ∧ includeString TestAutoscalerArgs_args "--scale-down-unneeded-time=10s" = true
  ∧ includeString TestAutoscalerArgs_args "--cores-total=16:32" = true
  ∧ includeString TestAutoscalerArgs_args "--max-nodes-total=100" = true.
Proof. vm_compute. auto. Qed.

End arguments.

(** ** Runs of the handler on the in-memory store *)

Section runs.
Import autoscaler.
#[local] Existing Instance testArgsBuilder.

Let ca : ClusterAutoscaler.t := clusterautoscaler.NewClusterAutoscaler.
Let dep : Deployment.t := autoscalerDeployment ca.

(** C2. Reconciling the configuration resource of the test twice, from an
    empty store and with no change in between: the first run creates the
    workload; at the second run the stored pod template is the one just
    built, and yet the update is sent.  [reflect.DeepEqual] is given the
    stored [PodSpec] and a pointer to the built one, two values of different
    types, so the comparison is false whatever they hold. *)
Theorem Handle_twice_unchanged_still_updates :
  let r1 := Handle testHandler (testEvent false) (initState FakeStore.empty) in
  let r2 := Handle testHandler (testEvent false) r1.2 in
  r1 = (None, mkState (FakeStore.mk [dep] None None None) [CallCreate dep] [] [])
  ∧ (∀ stored, FakeStore.find dep (store r1.2) = Some stored →
       PodTemplateSpec.Spec (DeploymentSpec.Template (Deployment.Spec stored))
       = autoscalerPodSpec ca)
  ∧ reflect_DeepEqual
      (iface_PodSpec (PodTemplateSpec.Spec (DeploymentSpec.Template (Deployment.Spec dep))))
      (iface_ptr_PodSpec (Some (autoscalerPodSpec ca))) = false
  ∧ r2.1 = None
  ∧ calls r2.2 = [CallCreate dep; CallCreate dep; CallGet dep; CallUpdate dep]
  ∧ length (filter (λ c, isUpdate c = true) (calls r2.2)) = 1.
Proof.
  cbv zeta. split; [vm_compute; reflexivity|].
  split. { intros stored Hs. vm_compute in Hs. injection Hs as <-. reflexivity. }
  split; [reflexivity|].
  split; [vm_compute; reflexivity|].
  split; vm_compute; reflexivity.
Qed.

(** C7. A handler made with the counter that [RegisterOperatorMetrics]
    registers, and a store whose create fails: [Handle] answers an error and
    the counter is at zero before and after.  No statement of [Handle] or of
    [updateAutoscaler] increments it. *)
Theorem Handle_failure_leaves_counter :
  let s0 := initState (FakeStore.mk [] (Some serverTimeout) None None) in
  let reg := RegisterOperatorMetrics s0 in
  let h := NewHandler
             (mkMetrics (mkCounter "memcached_operator_reconcile_errors_total" 0)) in
  let r := Handle h (testEvent false) reg.2 in
  reg.1 = (Some (metrics h), None)
  ∧ r.1 = Some (errorString
                  ("failed to create autoscaler deployment: " +:+ Error serverTimeout))
  ∧ operatorErrorsValue h reg.2 = Some 0
  ∧ operatorErrorsValue h r.2 = Some 0.
Proof. cbv zeta. repeat split; vm_compute; reflexivity. Qed.

(** *** Instances of the theorems that have hypotheses *)

Lemma Handle_create_then_update_or_fail_witness :
  let down := initState (FakeStore.mk [] (Some serverTimeout) None None) in
  let taken := initState (FakeStore.mk [dep] None None None) in
  ((Handle testHandler (testEvent false) down).1
   = Some (errorString
             ("failed to create autoscaler deployment: " +:+ Error serverTimeout))
   ∧ calls (Handle testHandler (testEvent false) down).2 = [CallCreate dep])
  ∧ Handle testHandler (testEvent false) taken
    = updateAutoscaler ca (logCall (CallCreate dep) (store taken) taken).
Proof.
  cbv zeta. split.
  - assert (E : store_Create (autoscalerDeployment ca)
                  (store (initState (FakeStore.mk [] (Some serverTimeout) None None)))
                = (Some serverTimeout, FakeStore.mk [] (Some serverTimeout) None None))
      by reflexivity.
    destruct (Handle_create_then_update_or_fail testHandler ca _ _ _ E) as (_ & _ & H).
    destruct (H serverTimeout eq_refl eq_refl) as (H1 & _ & H2).
    split; [exact H1|exact H2].
  - assert (E : store_Create (autoscalerDeployment ca)
                  (store (initState (FakeStore.mk [dep] None None None)))
                = (Some (StatusError StatusReasonAlreadyExists
                           "deployments.apps cluster-autoscaler-test already exists"),
                   FakeStore.mk [dep] None None None))
      by (vm_compute; reflexivity).
    destruct (Handle_create_then_update_or_fail testHandler ca _ _ _ E) as (_ & H & _).
    apply H. reflexivity.
Defined.

Lemma updateAutoscaler_fetch_failure_witness :
  let s := initState (FakeStore.mk [dep] None (Some serverTimeout) None) in
  (updateAutoscaler ca s).1
  = Some (errorString ("failed to get autoscaler deployment: " +:+ Error serverTimeout))
  ∧ calls (updateAutoscaler ca s).2 = [CallGet dep]
  ∧ store (updateAutoscaler ca s).2 = store s.
Proof.
  cbv zeta.
  assert (E : store_Get (autoscalerDeployment ca)
                (store (initState (FakeStore.mk [dep] None (Some serverTimeout) None)))
              = (Some serverTimeout, autoscalerDeployment ca,
                 FakeStore.mk [dep] None (Some serverTimeout) None))
    by reflexivity.
  destruct (updateAutoscaler_fetch_failure ca _ _ _ _ E) as (H1 & H2 & H3 & _).
  split; [exact H1|]. split; [exact H2|exact H3].
Defined.

Lemma updateAutoscaler_update_frame_witness :
  let s := initState (FakeStore.mk [driftedDeployment] None None None) in
  let written := Deployment.set_Spec_Template_Spec driftedDeployment (autoscalerPodSpec ca) in
  calls (updateAutoscaler ca s).2 = [CallGet dep; CallUpdate written]
  ∧ DeploymentSpec.Replicas (Deployment.Spec written) = Some 3%Z
  ∧ Deployment.ObjectMeta written = Deployment.ObjectMeta driftedDeployment.
Proof.
  cbv zeta.
  assert (E : store_Get (autoscalerDeployment ca)
                (store (initState (FakeStore.mk [driftedDeployment] None None None)))
              = (None, driftedDeployment, FakeStore.mk [driftedDeployment] None None None))
    by (vm_compute; reflexivity).
  assert (C : calls (updateAutoscaler ca
                       (initState (FakeStore.mk [driftedDeployment] None None None))).2
              = [CallGet dep;
                 CallUpdate (Deployment.set_Spec_Template_Spec driftedDeployment
                               (autoscalerPodSpec ca))])
    by (vm_compute; reflexivity).
  split; [exact C|].
  assert (Hin : CallUpdate (Deployment.set_Spec_Template_Spec driftedDeployment
                              (autoscalerPodSpec ca))
                ∈ drop (length (calls (initState
                                         (FakeStore.mk [driftedDeployment] None None None))))
                    (calls (updateAutoscaler ca
                              (initState
                                 (FakeStore.mk [driftedDeployment] None None None))).2)).
  { rewrite C. cbn. apply elem_of_cons. right. apply elem_of_cons. now left. }
  destruct (updateAutoscaler_update_frame ca _ _ _ _ E Hin) as (_ & _ & _ & H4 & H5 & _).
  split; [exact H5|exact H4].
Defined.

Lemma Handle_ignores_other_objects_witness :
  let s := initState (FakeStore.mk [dep] None None None) in
  Handle testHandler (Event.mk (Object_Deployment dep) false) s = (None, s)
  ∧ Handle testHandler (Event.mk (Object_other (TypeMeta.mk "v1" "ConfigMap")) true) s
    = (None, s).
Proof.
  cbv zeta. split.
  - apply (Handle_ignores_other_objects testHandler
             (Event.mk (Object_Deployment dep) false)). reflexivity.
  - apply (Handle_ignores_other_objects testHandler
             (Event.mk (Object_other (TypeMeta.mk "v1" "ConfigMap")) true)). reflexivity.
Defined.



End runs.

(** ** Further properties of the handler *)

Section handler_outcomes.
Context `{AB : !autoscaler.ArgsBuilder} {W : Type} `{OS : !ObjectStore W}.
Import autoscaler.

(** One run of [Handle] on a configuration resource that is not deleted, by
    the answers of the store to the three calls it can make. *)
Lemma Handle_run h ca (s : State W) e1 w1 e2 d2 w2 e3 w3 :
  let dep := autoscalerDeployment ca in
  let written := Deployment.set_Spec_Template_Spec d2 (autoscalerPodSpec ca) in
  store_Create dep (store s) = (e1, w1) →
  store_Get dep w1 = (e2, d2, w2) →
  store_Update written w2 = (e3, w3) →
  let s1 := logCall (CallCreate dep) w1 s in
  let s2 := logCall (CallGet dep) w2 s1 in
  let s3 := logCall (CallUpdate written) w3 s2 in
  Handle h (Event.mk (Object_ClusterAutoscaler ca) false) s
  = match e1 with
    | None => (None, s1)
    | Some _ =>
        if IsAlreadyExists e1 then
          match e2 with
          | Some _ => (Some (fmt_Errorf "failed to get autoscaler deployment: " e2), s2)
          | None =>
              (match e3 with
               | Some _ => Some (fmt_Errorf "failed to update autoscaler deployment: " e3)
               | None => None
               end, s3)
          end
        else (Some (fmt_Errorf "failed to create autoscaler deployment: " e1), s1)
    end.
Proof.
  cbv zeta. intros EC EG EU.
  unfold Handle, mbind, M_bind. cbn.
  rewrite (sdk_Create_run _ _ _ _ EC).
  destruct e1 as [c1|]; [|reflexivity].
  destruct (IsAlreadyExists (Some c1)) eqn:EA; cbn; [|reflexivity].
  destruct e2 as [c2|].
  - now rewrite (updateAutoscaler_Get_error ca (logCall _ w1 s) c2 d2 w2 EG).
  - now rewrite (updateAutoscaler_Get_ok ca (logCall _ w1 s) d2 w2 e3 w3 EG EU).
Qed.

(** X1. [Handle] answers nil exactly when the create succeeds, or the create
    fails with already-exists and both the fetch and the update succeed.
    After a create that succeeds nothing else is called; after a successful
    pass through the update path the store is the one the update left. *)
Theorem Handle_returns_nil_iff h ca (s : State W) e1 w1 e2 d2 w2 e3 w3 :
  store_Create (autoscalerDeployment ca) (store s) = (e1, w1) →
  store_Get (autoscalerDeployment ca) w1 = (e2, d2, w2) →
  store_Update (Deployment.set_Spec_Template_Spec d2 (autoscalerPodSpec ca)) w2 = (e3, w3) →
  let r := Handle h (Event.mk (Object_ClusterAutoscaler ca) false) s in
  (r.1 = None ↔ e1 = None ∨ (IsAlreadyExists e1 = true ∧ e2 = None ∧ e3 = None))
  ∧ (e1 = None →
       r.2 = logCall (CallCreate (autoscalerDeployment ca)) w1 s
       ∧ newCalls s r.2 = [CallCreate (autoscalerDeployment ca)])
  ∧ (IsAlreadyExists e1 = true → e2 = None → store r.2 = w3).
Proof.
  intros EC EG EU r. subst r. rewrite (Handle_run h ca s _ _ _ _ _ _ _ EC EG EU).
  split; [|split].
  - destruct e1 as [c1|]; [|split; auto].
    destruct (IsAlreadyExists (Some c1)) eqn:EA.
    + destruct e2 as [c2|], e3 as [c3|]; cbn; split;
        try discriminate; try (intros [?|(_ & ? & ?)]; discriminate); auto.
    + cbn. split; [discriminate|]. intros [?|(? & _)]; discriminate.
  - intros ->. split; [reflexivity|]. unfold newCalls. cbn.
    now rewrite drop_app_length.
  - intros EA ->. destruct e1 as [c1|]; [|discriminate]. rewrite EA.
    now destruct e3.
Qed.

(** X2. In the update path, when the fetch succeeds, the update is sent with
    the fetched workload carrying the built pod spec, right after the fetch.
    [updateAutoscaler] answers nil when the update succeeds, and the error
    "failed to update autoscaler deployment: ..." that wraps the message of
    the failure when it fails; the store is the one the update left. *)
Theorem updateAutoscaler_update_outcome ca (s : State W) fetched w err w' :
  store_Get (autoscalerDeployment ca) (store s) = (None, fetched, w) →
  store_Update (Deployment.set_Spec_Template_Spec fetched (autoscalerPodSpec ca)) w
  = (err, w') →
  let r := updateAutoscaler ca s in
  (err = None → r.1 = None)
  ∧ (∀ e, err = Some e →
       r.1 = Some (errorString ("failed to update autoscaler deployment: " +:+ Error e)))
  ∧ newCalls s r.2
    = [ CallGet (autoscalerDeployment ca);
        CallUpdate (Deployment.set_Spec_Template_Spec fetched (autoscalerPodSpec ca)) ]
  ∧ store r.2 = w'.
Proof.
  intros EG EU r. subst r. rewrite (updateAutoscaler_Get_ok ca s _ _ _ _ EG EU).
  split; [intros ->; reflexivity|]. split; [intros e ->; reflexivity|].
  split; [|reflexivity]. unfold newCalls. cbn.
  now rewrite <- app_assoc, drop_app_length.
Qed.

(** X3. Every error [Handle] answers is a plain error made by [fmt.Errorf]
    for a configuration resource that is not deleted: one of the three fixed
    texts followed by the message of the error the store answered to the
    call that failed, the create (unless it failed with already-exists), the
    fetch or the update.  The reason of the store's error is not kept:
    neither [errors.IsAlreadyExists] nor [errors.IsNotFound] holds of what
    [Handle] answers. *)
Theorem Handle_errors_are_wrapped h ev (s : State W) e :
  (Handle h ev s).1 = Some e →
  (∃ ca, Event.Object ev = Object_ClusterAutoscaler ca
         ∧ Event.Deleted ev = false
         ∧ let dep := autoscalerDeployment ca in
           let create := store_Create dep (store s) in
           let get := store_Get dep create.2 in
           let update :=
             store_Update
               (Deployment.set_Spec_Template_Spec get.1.2 (autoscalerPodSpec ca)) get.2 in
           (∃ c, create.1 = Some c ∧ IsAlreadyExists create.1 = false
                 ∧ e = errorString
                         ("failed to create autoscaler deployment: " +:+ Error c))
           ∨ (∃ c, IsAlreadyExists create.1 = true ∧ get.1.1 = Some c
                   ∧ e = errorString
                           ("failed to get autoscaler deployment: " +:+ Error c))
           ∨ (∃ c, IsAlreadyExists create.1 = true ∧ get.1.1 = None
                   ∧ update.1 = Some c
                   ∧ e = errorString
                           ("failed to update autoscaler deployment: " +:+ Error c)))
  ∧ ReasonForError (Some e) = StatusReasonUnknown
  ∧ IsAlreadyExists (Some e) = false
  ∧ IsNotFound (Some e) = false.
Proof.
  intros He.
  assert (Hw : ∃ text cause, e = errorString (text +:+ Error cause)
               ∧ ∃ ca, Event.Object ev = Object_ClusterAutoscaler ca
         ∧ Event.Deleted ev = false
         ∧ let dep := autoscalerDeployment ca in
           let create := store_Create dep (store s) in
           let get := store_Get dep create.2 in
           let update :=
             store_Update
               (Deployment.set_Spec_Template_Spec get.1.2 (autoscalerPodSpec ca)) get.2 in
           (∃ c, create.1 = Some c ∧ IsAlreadyExists create.1 = false
                 ∧ e = errorString
                         ("failed to create autoscaler deployment: " +:+ Error c))
           ∨ (∃ c, IsAlreadyExists create.1 = true ∧ get.1.1 = Some c
                   ∧ e = errorString
                           ("failed to get autoscaler deployment: " +:+ Error c))
           ∨ (∃ c, IsAlreadyExists create.1 = true ∧ get.1.1 = None
                   ∧ update.1 = Some c
                   ∧ e = errorString
                           ("failed to update autoscaler deployment: " +:+ Error c))).
  { destruct ev as [[ca| |] [|]]; try discriminate He.
    destruct (store_Create (autoscalerDeployment ca) (store s)) as [e1 w1] eqn:EC.
    destruct (store_Get (autoscalerDeployment ca) w1) as [[e2 d2] w2] eqn:EG.
    destruct (store_Update
                (Deployment.set_Spec_Template_Spec d2 (autoscalerPodSpec ca)) w2)
      as [e3 w3] eqn:EU.
    rewrite (Handle_run h ca s _ _ _ _ _ _ _ EC EG EU) in He.
    assert (Hstore : ∀ P : option error → option error → option error → Prop,
               P e1 e2 e3 →
               let dep := autoscalerDeployment ca in
               let create := store_Create dep (store s) in
               let get := store_Get dep create.2 in
               let update :=
                 store_Update
                   (Deployment.set_Spec_Template_Spec get.1.2 (autoscalerPodSpec ca))
                   get.2 in
               P create.1 get.1.1 update.1).
    { intros P HP. cbv zeta. rewrite EC. cbn [fst snd]. rewrite EG. cbn [fst snd].
      now rewrite EU. }
    destruct e1 as [c1|]; [|discriminate He].
    destruct (IsAlreadyExists (Some c1)) eqn:EA.
    - destruct e2 as [c2|].
      + injection He as <-. eexists _, c2. split; [reflexivity|].
        exists ca. split; [reflexivity|]. split; [reflexivity|].
        apply (Hstore (λ a b c, _ ∨ (∃ x, IsAlreadyExists a = true ∧ b = Some x ∧ _) ∨ _)).
        right; left. exists c2. repeat split; try assumption; reflexivity.
      + destruct e3 as [c3|]; [|discriminate He].
        injection He as <-. eexists _, c3. split; [reflexivity|].
        exists ca. split; [reflexivity|]. split; [reflexivity|].
        apply (Hstore (λ a b c, _ ∨ _ ∨ (∃ x, IsAlreadyExists a = true ∧ b = None
                                            ∧ c = Some x ∧ _))).
        right; right. exists c3. repeat split; try assumption; reflexivity.
    - injection He as <-. eexists _, c1. split; [reflexivity|].
      exists ca. split; [reflexivity|]. split; [reflexivity|].
      apply (Hstore (λ a b c, (∃ x, a = Some x ∧ IsAlreadyExists a = false ∧ _) ∨ _ ∨ _)).
      left. exists c1. repeat split; try assumption; reflexivity. }
  destruct Hw as (text & cause & -> & Hw). split; [exact Hw|]. auto.
Qed.

(** X4. For an event that carries a configuration resource, [Handle] keeps
    the calls logged before it and adds at most three: the create of the built
    deployment, then the fetch into the built deployment, then one update, in
    this order and each at most once.  It adds none for a deletion and at
    least the create otherwise. *)
Theorem Handle_call_order h ca deleted (s : State W) :
  let r := Handle h (Event.mk (Object_ClusterAutoscaler ca) deleted) s in
  let dep := autoscalerDeployment ca in
  calls r.2 = calls s ++ newCalls s r.2
  ∧ (∃ d, newCalls s r.2 `prefix_of` [CallCreate dep; CallGet dep; CallUpdate d])
  ∧ (newCalls s r.2 = [] ↔ deleted = true).
Proof.
  intros r dep. subst r. destruct deleted.
  { cbn. unfold newCalls. rewrite drop_all, app_nil_r.
    split; [reflexivity|]. split; [|tauto].
    exists dep. apply prefix_nil. }
  destruct (store_Create (autoscalerDeployment ca) (store s)) as [e1 w1] eqn:EC.
  destruct (store_Get (autoscalerDeployment ca) w1) as [[e2 d2] w2] eqn:EG.
  destruct (store_Update
              (Deployment.set_Spec_Template_Spec d2 (autoscalerPodSpec ca)) w2)
    as [e3 w3] eqn:EU.
  rewrite (Handle_run h ca s _ _ _ _ _ _ _ EC EG EU). fold dep.
  set (written := Deployment.set_Spec_Template_Spec d2 (autoscalerPodSpec ca)).
  assert (H1 : newCalls s (logCall (CallCreate dep) w1 s) = [CallCreate dep]).
  { unfold newCalls. cbn. now rewrite drop_app_length. }
  assert (H2 : newCalls s (logCall (CallGet dep) w2 (logCall (CallCreate dep) w1 s))
               = [CallCreate dep; CallGet dep]).
  { unfold newCalls. cbn. now rewrite <- app_assoc, drop_app_length. }
  assert (H3 : newCalls s (logCall (CallUpdate written) w3
                             (logCall (CallGet dep) w2 (logCall (CallCreate dep) w1 s)))
               = [CallCreate dep; CallGet dep; CallUpdate written]).
  { unfold newCalls. cbn. now rewrite <- !app_assoc, drop_app_length. }
  destruct e1 as [c1|]; [destruct (IsAlreadyExists (Some c1)); [destruct e2 as [c2|]|]|];
    cbn [fst snd]; rewrite ?H1, ?H2, ?H3; cbn [calls logCall];
    rewrite <- ?app_assoc; (split; [reflexivity|]);
    (split; [|split; discriminate]).
  - exists written. now exists [CallUpdate written].
  - exists written. now exists [].
  - exists written. now exists [CallGet dep; CallUpdate written].
  - exists written. now exists [CallGet dep; CallUpdate written].
Qed.

(** X5. No run of [Handle], whatever the event and the store, changes the
    value of a counter or the set of registered metrics. *)
Theorem Handle_leaves_metrics h ev (s : State W) :
  counters (Handle h ev s).2 = counters s
  ∧ registry (Handle h ev s).2 = registry s.
Proof.
  destruct ev as [[ca| |] [|]]; try (split; reflexivity).
  destruct (store_Create (autoscalerDeployment ca) (store s)) as [e1 w1] eqn:EC.
  destruct (store_Get (autoscalerDeployment ca) w1) as [[e2 d2] w2] eqn:EG.
  destruct (store_Update
              (Deployment.set_Spec_Template_Spec d2 (autoscalerPodSpec ca)) w2)
    as [e3 w3] eqn:EU.
  rewrite (Handle_run h ca s _ _ _ _ _ _ _ EC EG EU).
  destruct e1 as [c1|]; [destruct (IsAlreadyExists (Some c1)); [destruct e2 as [c2|]|]|];
    split; reflexivity.
Qed.

End handler_outcomes.

(** ** Further properties of the built deployment *)

Section deployment_properties.
Context `{AB : !autoscaler.ArgsBuilder}.
Import autoscaler.

Lemma string_app_inv_head (p a b : string) : p +:+ a = p +:+ b → a = b.
Proof. induction p as [|c p IH]; cbn; [auto|]. intros [= H]. auto. Qed.

(** X6. The selector of the built deployment is the label set of its pod
    template, so the deployment selects the pods it makes.  That set has
    exactly two labels: [app] with the value [cluster-autoscaler] and
    [cluster-autoscaler] with the name of the configuration resource. *)
Theorem autoscalerDeployment_selector_matches_template ca :
  let spec := Deployment.Spec (autoscalerDeployment ca) in
  let labels := ObjectMeta.Labels
                  (PodTemplateSpec.ObjectMeta (DeploymentSpec.Template spec)) in
  LabelSelector.MatchLabels <$> DeploymentSpec.Selector spec = Some labels
  ∧ labels !! "app" = Some "cluster-autoscaler"
  ∧ labels !! "cluster-autoscaler" = Some (ClusterAutoscaler.Name ca)
  ∧ (∀ k, is_Some (labels !! k) ↔ k = "app" ∨ k = "cluster-autoscaler")
  ∧ size labels = 2.
Proof.
  cbn. split; [reflexivity|]. split; [reflexivity|].
  split; [now rewrite lookup_insert_eq|].
  split.
  - intros k. rewrite lookup_insert_is_Some, lookup_insert_is_Some, lookup_empty.
    split.
    + intros [ <- | [_ [ <- | [_ H]]]]; auto. now destruct H.
    + intros [ -> | -> ]; [right; split; [discriminate|now left]|now left].
  - rewrite map_size_insert_None by reflexivity.
    rewrite map_size_insert_None by reflexivity. now rewrite map_size_empty.
Qed.

(** X7. Two configuration resources get deployments of the same namespace
    and name exactly when they have the same namespace and name: the name of
    a deployment is the text [cluster-autoscaler-] followed by the name of
    its resource, and no two resources of a namespace share a workload. *)
Theorem autoscalerDeployment_key_injective ca1 ca2 :
  let key d := (ObjectMeta.Namespace (Deployment.ObjectMeta d),
                ObjectMeta.Name (Deployment.ObjectMeta d)) in
  (key (autoscalerDeployment ca1) = key (autoscalerDeployment ca2)
   ↔ ClusterAutoscaler.Namespace ca1 = ClusterAutoscaler.Namespace ca2
     ∧ ClusterAutoscaler.Name ca1 = ClusterAutoscaler.Name ca2)
  ∧ ObjectMeta.Name (Deployment.ObjectMeta (autoscalerDeployment ca1))
    = "cluster-autoscaler-" +:+ ClusterAutoscaler.Name ca1.
Proof.
  cbv zeta. split; [|reflexivity]. split.
  - intros Hkey.
    assert (Hns : ClusterAutoscaler.Namespace ca1 = ClusterAutoscaler.Namespace ca2)
      by exact (f_equal fst Hkey).
    assert (Hn : "cluster-autoscaler-" +:+ ClusterAutoscaler.Name ca1
                 = "cluster-autoscaler-" +:+ ClusterAutoscaler.Name ca2)
      by exact (f_equal snd Hkey).
    split; [exact Hns|]. exact (string_app_inv_head _ _ _ Hn).
  - intros [Hns Hn]. cbn. unfold ClusterAutoscaler.Namespace, ClusterAutoscaler.Name in *.
    now rewrite Hns, Hn.
Qed.

(** X8. [addOwnerRefToObject] keeps the owner references an object has, in
    their order, and puts the new one last; it changes no other field.  It
    does not look for the reference among those present: adding a reference
    twice leaves it there twice. *)
Theorem addOwnerRefToObject_appends (obj : Deployment.t) (r : OwnerReference.t) :
  let obj' := addOwnerRefToObject obj r in
  Deployment.GetOwnerReferences obj' = Deployment.GetOwnerReferences obj ++ [r]
  ∧ Deployment.GetOwnerReferences (addOwnerRefToObject obj' r)
    = Deployment.GetOwnerReferences obj ++ [r; r]
  ∧ (let m := Deployment.ObjectMeta obj in
     let m' := Deployment.ObjectMeta obj' in
     ObjectMeta.Name m' = ObjectMeta.Name m
     ∧ ObjectMeta.Namespace m' = ObjectMeta.Namespace m
     ∧ ObjectMeta.UID m' = ObjectMeta.UID m
     ∧ ObjectMeta.ResourceVersion m' = ObjectMeta.ResourceVersion m
     ∧ ObjectMeta.Generation m' = ObjectMeta.Generation m
     ∧ ObjectMeta.Labels m' = ObjectMeta.Labels m
     ∧ ObjectMeta.Annotations m' = ObjectMeta.Annotations m)
  ∧ Deployment.TypeMeta obj' = Deployment.TypeMeta obj
  ∧ Deployment.Spec obj' = Deployment.Spec obj
  ∧ Deployment.Status obj' = Deployment.Status obj.
Proof.
  cbn. split; [reflexivity|]. split; [now rewrite <- app_assoc|].
  repeat split.
Qed.

(** X9. The built deployment has exactly one owner reference: a controller
    reference that names the configuration resource by API version, kind,
    name and UID. *)
Theorem autoscalerDeployment_owner ca :
  ∃ r, Deployment.GetOwnerReferences (autoscalerDeployment ca) = [r]
       ∧ r = asOwner ca
       ∧ OwnerReference.Controller r = Some true
       ∧ OwnerReference.APIVersion r = ClusterAutoscaler.APIVersion ca
       ∧ OwnerReference.Kind r = ClusterAutoscaler.Kind ca
       ∧ OwnerReference.Name r = ClusterAutoscaler.Name ca
       ∧ OwnerReference.UID r = ClusterAutoscaler.UID ca.
Proof. exists (asOwner ca). repeat split. Qed.

End deployment_properties.

(** ** The registration of the metrics *)

Section metrics_properties.
Context {W : Type}.
Import autoscaler.

(** X10. Where the name of the counter is not registered yet,
    [RegisterOperatorMetrics] answers metrics and no error; their counter is
    new and at zero, and the name is registered.  Called again on the state
    it left, it answers the error of the registration and no metrics, and
    leaves the registered names and the first counter as they were.  Neither
    call touches the object store. *)
Theorem RegisterOperatorMetrics_once (s : State W) :
  "memcached_operator_reconcile_errors_total" ∉ registry s →
  let r1 := RegisterOperatorMetrics s in
  let r2 := RegisterOperatorMetrics r1.2 in
  (∃ m, r1.1 = (Some m, None)
        ∧ counterCell (operatorErrors m) = length (counters s)
        ∧ counters r1.2 !! counterCell (operatorErrors m) = Some 0
        ∧ counters r2.2 !! counterCell (operatorErrors m) = Some 0)
  ∧ registry r1.2 = "memcached_operator_reconcile_errors_total" :: registry s
  ∧ (∃ e, r2.1 = (None, Some e))
  ∧ registry r2.2 = registry r1.2
  ∧ store r2.2 = store s ∧ calls r2.2 = calls s.
Proof.
  intros Hfresh r1 r2.
  assert (E1 : r1 = ((Some (mkMetrics
                              (mkCounter "memcached_operator_reconcile_errors_total"
                                 (length (counters s)))), None),
                     mkState (store s) (calls s) (counters s ++ [0])
                       ("memcached_operator_reconcile_errors_total" :: registry s))).
  { subst r1. unfold RegisterOperatorMetrics, mbind, M_bind, prometheus_NewCounter,
      prometheus_Register. cbn.
    rewrite bool_decide_eq_false_2 by exact Hfresh. reflexivity. }
  assert (E2 : r2 = ((None, Some (errorString
                                    "duplicate metrics collector registration attempted")),
                     mkState (store s) (calls s) ((counters s ++ [0]) ++ [0])
                       ("memcached_operator_reconcile_errors_total" :: registry s))).
  { subst r2. rewrite E1. unfold RegisterOperatorMetrics, mbind, M_bind,
      prometheus_NewCounter, prometheus_Register. cbn.
    rewrite bool_decide_eq_true_2 by (apply elem_of_cons; now left). reflexivity. }
  rewrite E2, E1. cbn. split; [|repeat split; eauto].
  eexists. split; [reflexivity|]. cbn. split; [reflexivity|].
  split.
  - rewrite lookup_app_r by lia. now rewrite Nat.sub_diag.
  - rewrite lookup_app_l by (rewrite length_app; cbn; lia).
    rewrite lookup_app_r by lia. now rewrite Nat.sub_diag.
Qed.

End metrics_properties.

(** ** The helpers of the test file *)

Section test_helpers.
Import clusterautoscaler.

(** X11. [includeString] answers true exactly when the item is an element of
    the list; so it answers false on the empty list, and on a concatenation
    it answers true when it does on either part. *)
Theorem includeString_spec (l1 l2 : list string) (item : string) :
  (includeString l1 item = true ↔ item ∈ l1)
  ∧ includeString [] item = false
  ∧ includeString (l1 ++ l2) item = includeString l1 item || includeString l2 item.
Proof.
  split; [apply includeString_elem_of|]. split; [reflexivity|].
  induction l1 as [|x l1 IH]; cbn; [reflexivity|].
  destruct (String.eqb x item); [reflexivity|exact IH].
Qed.

Lemma String_prefix_nil s : String.prefix "" s = true.
Proof. now destruct s. Qed.

Lemma String_prefix_refl s : String.prefix s s = true.
Proof.
  induction s as [|c s IH]; cbn; [reflexivity|].
  destruct (Ascii.ascii_dec c c); [exact IH|contradiction].
Qed.

(** X12. [includesStringWithPrefix] answers true exactly when some element
    of the list starts with the prefix.  With the empty prefix it answers true
    for every list that is not empty; and a list that includes an item
    includes a string with that item as prefix. *)
Theorem includesStringWithPrefix_spec (l : list string) (prefix item : string) :
  (includesStringWithPrefix l prefix = true
   ↔ ∃ s, s ∈ l ∧ String.prefix prefix s = true)
  ∧ (includesStringWithPrefix l "" = true ↔ l ≠ [])
  ∧ (includeString l item = true → includesStringWithPrefix l item = true).
Proof.
  assert (Hspec : ∀ p, includesStringWithPrefix l p = true
                       ↔ ∃ s, s ∈ l ∧ String.prefix p s = true).
  { intros p. induction l as [|x l IH]; cbn.
    - split; [discriminate|]. intros (s & Hs & _). now apply elem_of_nil in Hs.
    - destruct (String.prefix p x) eqn:Ep.
      + split; [|reflexivity]. intros _. exists x. split; [now left|exact Ep].
      + rewrite IH. split.
        * intros (s & Hs & Hp). exists s. split; [now right|exact Hp].
        * intros (s & Hs & Hp). apply elem_of_cons in Hs as [->|Hs];
            [congruence|]. now exists s. }
  split; [apply Hspec|]. split.
  - destruct l as [|x l]; cbn; [split; [discriminate|congruence]|].
    now rewrite String_prefix_nil.
  - intros Hin. apply Hspec. exists item. split.
    + now apply includeString_elem_of.
    + apply String_prefix_refl.
Qed.

End test_helpers.

(** *** Instances of the further theorems that have hypotheses *)

Section further_runs.
Import autoscaler.
#[local] Existing Instance testArgsBuilder.

Let ca : ClusterAutoscaler.t := clusterautoscaler.NewClusterAutoscaler.
Let dep : Deployment.t := autoscalerDeployment ca.

Lemma Handle_returns_nil_iff_witness :
  let s := initState FakeStore.empty in
  (Handle testHandler (testEvent false) s).1 = None
  ∧ newCalls s (Handle testHandler (testEvent false) s).2 = [CallCreate dep].
Proof.
  cbv zeta.
  assert (EC : store_Create (autoscalerDeployment ca) (store (initState FakeStore.empty))
               = (None, FakeStore.mk [dep] None None None))
    by (vm_compute; reflexivity).
  assert (EG : store_Get (autoscalerDeployment ca) (FakeStore.mk [dep] None None None)
               = (None, dep, FakeStore.mk [dep] None None None))
    by (vm_compute; reflexivity).
  assert (EU : store_Update (Deployment.set_Spec_Template_Spec dep (autoscalerPodSpec ca))
                 (FakeStore.mk [dep] None None None)
               = (None, FakeStore.mk [dep] None None None))
    by (vm_compute; reflexivity).
  destruct (Handle_returns_nil_iff testHandler ca _ _ _ _ _ _ _ _ EC EG EU)
    as (H1 & H2 & _).
  split; [apply H1; now left|]. now destruct (H2 eq_refl).
Defined.

Lemma updateAutoscaler_update_outcome_witness :
  let s := initState (FakeStore.mk [driftedDeployment] None None (Some serverTimeout)) in
  (updateAutoscaler ca s).1
  = Some (errorString ("failed to update autoscaler deployment: " +:+ Error serverTimeout))
  ∧ store (updateAutoscaler ca s).2 = store s.
Proof.
  cbv zeta.
  assert (EG : store_Get (autoscalerDeployment ca)
                 (store (initState
                           (FakeStore.mk [driftedDeployment] None None (Some serverTimeout))))
               = (None, driftedDeployment,
                  FakeStore.mk [driftedDeployment] None None (Some serverTimeout)))
    by (vm_compute; reflexivity).
  assert (EU : store_Update
                 (Deployment.set_Spec_Template_Spec driftedDeployment (autoscalerPodSpec ca))
                 (FakeStore.mk [driftedDeployment] None None (Some serverTimeout))
               = (Some serverTimeout,
                  FakeStore.mk [driftedDeployment] None None (Some serverTimeout)))
    by reflexivity.
  destruct (updateAutoscaler_update_outcome ca _ _ _ _ _ EG EU) as (_ & H2 & _ & H4).
  split; [exact (H2 serverTimeout eq_refl)|exact H4].
Defined.

Lemma Handle_errors_are_wrapped_witness :
  let notFound := StatusError StatusReasonNotFound "deployments.apps not found" in
  let s := initState (FakeStore.mk [dep] None (Some notFound) None) in
  let e := errorString ("failed to get autoscaler deployment: " +:+ Error notFound) in
  (Handle testHandler (testEvent false) s).1 = Some e
  ∧ IsNotFound (Some notFound) = true
  ∧ IsNotFound (Some e) = false.
Proof.
  cbv zeta.
  assert (E : (Handle testHandler (testEvent false)
                 (initState
                    (FakeStore.mk [dep] None
                       (Some (StatusError StatusReasonNotFound "deployments.apps not found"))
                       None))).1
              = Some (errorString
                        ("failed to get autoscaler deployment: "
                         +:+ Error (StatusError StatusReasonNotFound
                                      "deployments.apps not found"))))
    by (vm_compute; reflexivity).
  destruct (Handle_errors_are_wrapped testHandler _ _ _ E) as (_ & _ & _ & H).
  split; [exact E|]. split; [reflexivity|exact H].
Defined.

Lemma RegisterOperatorMetrics_once_witness :
  let s := initState FakeStore.empty in
  registry (RegisterOperatorMetrics s).2 = ["memcached_operator_reconcile_errors_total"]
  ∧ ∃ e, (RegisterOperatorMetrics (RegisterOperatorMetrics s).2).1 = (None, Some e).
Proof.
  cbv zeta.
  assert (Hfresh : "memcached_operator_reconcile_errors_total"
                   ∉ registry (initState FakeStore.empty))
    by (cbn; apply not_elem_of_nil).
  destruct (RegisterOperatorMetrics_once (initState FakeStore.empty) Hfresh)
    as (_ & H2 & H3 & _).
  split; [exact H2|exact H3].
Defined.

End further_runs.
